(** * Pi_Birthday_Finder.py: a shallow embedding of
      [finde_geburtsdatum_in_pi] and of the script that calls it, and
      the properties of their results.

    Python values are modelled as follows.
    - [int] is [Z].
    - [str] is [string], a sequence of code points ([zeichen]); a
      literal between double quotes is read as UTF-8.
    - [float] is a binary64 number ([spec_float] with precision 53).
    - [None] or a string for [geburtszeit] is [option string].
    - the returned dictionary is the inductive type [Ergebnis], one
      constructor for each of the three key sets the function builds.
    - the calls into [datetime], [re] and [mpmath] and the assignment to
      the global [mp.dps] are effects on a [Welt], threaded through the
      monad [M]. *)

From Stdlib Require Import ZArith NArith List Bool Lia.
From Stdlib Require Import Strings.Byte.
From Stdlib Require Strings.String Numbers.DecimalString.
From Stdlib Require Import Floats.SpecFloat.
Import ListNotations.

Local Open Scope Z_scope.

(** ** Characters and strings *)

(** A character is its code point. *)
Definition zeichen : Type := N.

Inductive string : Type :=
| EmptyString
| String (c : zeichen) (s : string).

Module Utf8.

(** The code points of a text given in UTF-8, [None] on bytes that are
    not UTF-8. *)
Definition folge (b : byte) : option N :=
  let n := Byte.to_N b in
  if (128 <=? n)%N && (n <? 192)%N then Some (n - 128)%N else None.

Fixpoint decode (l : list byte) : option string :=
  match l with
  | [] => Some EmptyString
  | b :: r =>
      let n := Byte.to_N b in
      if (n <? 128)%N then option_map (String n) (decode r)
      else if (n <? 192)%N then None
      else if (n <? 224)%N then
        match r with
        | b1 :: r1 =>
            match folge b1 with
            | Some n1 =>
                option_map (String ((n - 192) * 64 + n1)%N) (decode r1)
            | None => None
            end
        | _ => None
        end
      else if (n <? 240)%N then
        match r with
        | b1 :: b2 :: r2 =>
            match folge b1, folge b2 with
            | Some n1, Some n2 =>
                option_map (String ((n - 224) * 4096 + n1 * 64 + n2)%N)
                           (decode r2)
            | _, _ => None
            end
        | _ => None
        end
      else
        match r with
        | b1 :: b2 :: b3 :: r3 =>
            match folge b1, folge b2, folge b3 with
            | Some n1, Some n2, Some n3 =>
                option_map
                  (String ((n - 240) * 262144 + n1 * 4096 + n2 * 64 + n3)%N)
                  (decode r3)
            | _, _, _ => None
            end
        | _ => None
        end
  end.

Definition byte_von (n : N) : byte :=
  match Byte.of_N n with
  | Some b => b
  | None => x00
  end.

Definition encode_zeichen (c : N) : list byte :=
  if (c <? 128)%N then [byte_von c]
  else if (c <? 2048)%N then
    [byte_von (192 + c / 64); byte_von (128 + c mod 64)]%N
  else if (c <? 65536)%N then
    [byte_von (224 + c / 4096); byte_von (128 + (c / 64) mod 64);
     byte_von (128 + c mod 64)]%N
  else
    [byte_von (240 + c / 262144); byte_von (128 + (c / 4096) mod 64);
     byte_von (128 + (c / 64) mod 64); byte_von (128 + c mod 64)]%N.

Fixpoint encode (s : string) : list byte :=
  match s with
  | EmptyString => []
  | String c s' => encode_zeichen c ++ encode s'
  end.

(** A literal for one character. *)
Definition decode_zeichen (l : list byte) : option N :=
  match decode l with
  | Some (String c EmptyString) => Some c
  | _ => None
  end.

End Utf8.

Declare Scope str_scope.
Delimit Scope str_scope with str.
Bind Scope str_scope with string.
String Notation string Utf8.decode Utf8.encode : str_scope.

Declare Scope zeichen_scope.
Delimit Scope zeichen_scope with zeichen.
Bind Scope zeichen_scope with zeichen.
String Notation N Utf8.decode_zeichen Utf8.encode_zeichen : zeichen_scope.

Local Open Scope str_scope.

Module Zeichen.

Definition eqb (a b : zeichen) : bool := N.eqb a b.

End Zeichen.

Module Str.

Fixpoint length (s : string) : nat :=
  match s with
  | EmptyString => O
  | String _ s' => S (length s')
  end.

Fixpoint append (s t : string) : string :=
  match s with
  | EmptyString => t
  | String c s' => String c (append s' t)
  end.

Fixpoint eqb (s t : string) : bool :=
  match s, t with
  | EmptyString, EmptyString => true
  | String a s', String b t' => Zeichen.eqb a b && eqb s' t'
  | _, _ => false
  end.

(** The character at index [n], if there is one. *)
Fixpoint get (n : nat) (s : string) : option zeichen :=
  match s, n with
  | EmptyString, _ => None
  | String c _, O => Some c
  | String _ s', S n' => get n' s'
  end.

(** A text of the Standard Library's 8-bit strings, character by
    character. *)
Fixpoint von_stdlib (s : Stdlib.Strings.String.string) : string :=
  match s with
  | Stdlib.Strings.String.EmptyString => EmptyString
  | Stdlib.Strings.String.String c s' =>
      String (Stdlib.Strings.Ascii.N_of_ascii c) (von_stdlib s')
  end.

End Str.

Infix "++" := Str.append (right associativity, at level 60) : str_scope.

(** ** Python strings *)

Module PyStr.

(** [len(s)]. *)
Definition len (s : string) : Z := Z.of_nat (Str.length s).

Fixpoint take (n : nat) (s : string) : string :=
  match n, s with
  | S n', String c s' => String c (take n' s')
  | _, _ => EmptyString
  end.

Fixpoint drop (n : nat) (s : string) : string :=
  match n, s with
  | S n', String _ s' => drop n' s'
  | _, _ => s
  end.

(** Index adjustment of a slice bound: a negative bound counts from
    the end, and the result is clamped to [0 .. len]. *)
Definition adjust (l i : Z) : Z :=
  let i := if i <? 0 then i + l else i in
  if i <? 0 then 0 else if l <? i then l else i.

(** [s[a:b]]; a missing bound is [None]. *)
Definition slice (s : string) (a b : option Z) : string :=
  let l := len s in
  let a' := match a with Some a => adjust l a | None => 0 end in
  let b' := match b with Some b => adjust l b | None => l end in
  take (Z.to_nat (b' - a')) (drop (Z.to_nat a') s).

(** [s.replace(".", empty)] with [empty] the empty string: every
    occurrence of the one-character string is removed. *)
Fixpoint replace_punkt (s : string) : string :=
  match s with
  | EmptyString => EmptyString
  | String c s' =>
      if Zeichen.eqb c "." then replace_punkt s'
      else String c (replace_punkt s')
  end.

(** [s.startswith(p)]. *)
Fixpoint startswith (p s : string) : bool :=
  match p, s with
  | EmptyString, _ => true
  | String a p', String b s' => Zeichen.eqb a b && startswith p' s'
  | String _ _, EmptyString => false
  end.

(** Leftmost index at which [sub] occurs in [s], counted from [i]. *)
Fixpoint find_from (i : Z) (sub s : string) : Z :=
  if startswith sub s then i
  else match s with
       | EmptyString => -1
       | String _ s' => find_from (i + 1) sub s'
       end.

(** [s.find(sub)]: the lowest index of an occurrence, or [-1]. *)
Definition find (s sub : string) : Z := find_from 0 sub s.

(** [s.split('.')[1]]: the text between the first and the second
    dot (or the end); [None] stands for the [IndexError] raised when
    the string has no dot. *)
Fixpoint bis_punkt (s : string) : string :=
  match s with
  | EmptyString => EmptyString
  | String c s' => if Zeichen.eqb c "." then EmptyString
                   else String c (bis_punkt s')
  end.

Fixpoint split_punkt_1 (s : string) : option string :=
  match s with
  | EmptyString => None
  | String c s' => if Zeichen.eqb c "." then Some (bis_punkt s')
                   else split_punkt_1 s'
  end.

(** ['0' * k]. *)
Fixpoint nullen (k : nat) : string :=
  match k with
  | O => EmptyString
  | S k' => String "0" (nullen k')
  end.

(** [str(n)] and [f"{n}"] for an [int]. *)
Definition of_int (n : Z) : string :=
  Str.von_stdlib
    (Stdlib.Numbers.DecimalString.NilZero.string_of_int (Z.to_int n)).

(** The first code points of the runs of ten decimal digits 0 to 9
    (the characters of category Nd, Unicode 14). *)
Definition dezimal_anfaenge : list N :=
  [48; 1632; 1776; 1984; 2406; 2534; 2662; 2790; 2918; 3046; 3174; 3302;
   3430; 3558; 3664; 3792; 3872; 4160; 4240; 6112; 6160; 6470; 6608; 6784;
   6800; 6992; 7088; 7232; 7248; 42528; 43216; 43264; 43472; 43504; 43600;
   44016; 65296; 66720; 68912; 69734; 69872; 69942; 70096; 70384; 70736;
   70864; 71248; 71360; 71472; 71904; 72016; 72784; 73040; 73120; 92768;
   92864; 93008; 120782; 120792; 120802; 120812; 120822; 123200; 123632;
   125264; 130032]%N.

(** The decimal value of a character, if it is a decimal digit. *)
Fixpoint dezimal_in (l : list N) (c : zeichen) : option Z :=
  match l with
  | [] => None
  | a :: l' =>
      if (a <=? c)%N && (c <? a + 10)%N then Some (Z.of_N (c - a))
      else dezimal_in l' c
  end.

Definition dezimalwert (c : zeichen) : option Z :=
  dezimal_in dezimal_anfaenge c.

(** The class [\d] of a pattern on [str]: the decimal digits of
    Unicode. *)
Definition is_digit (c : zeichen) : bool :=
  match dezimalwert c with
  | Some _ => true
  | None => false
  end.

(** [int(c)] of a digit character. *)
Definition digit_val (c : zeichen) : Z :=
  match dezimalwert c with
  | Some v => v
  | None => 0
  end.

(** The ranges [[0-9]] and [[1-9]] of a pattern. *)
Definition ist_0_9 (c : zeichen) : bool := (48 <=? c)%N && (c <=? 57)%N.

Definition ist_1_9 (c : zeichen) : bool := (49 <=? c)%N && (c <=? 57)%N.

End PyStr.

(** ** [datetime.strptime(s, "%d.%m.%Y")]

    The format is turned into the regular expression
    [(?P<d>3[0-1]|[1-2]\d|0[1-9]|[1-9]| [1-9])\.(?P<m>1[0-2]|0[1-9]|[1-9])\.(?P<Y>\d\d\d\d)],
    matched at the start of the input; input left over after the match
    and a day that the month does not have both raise [ValueError].
    A group is modelled by the list of its matches in the order in
    which the backtracking matcher tries them. *)

Module Datetime.

Import PyStr.

Record datetime := mk_datetime { year : Z; month : Z; day : Z }.

(** The range [[1-9]]. *)
Definition is_1_9 (c : zeichen) : bool := ist_1_9 c.

Definition wenn {A} (b : bool) (x : A) : list A := if b then [x] else [].

(** [3[0-1]|[1-2]\d|0[1-9]|[1-9]| [1-9]] *)
Definition re_d (s : string) : list (Z * string) :=
  match s with
  | EmptyString => []
  | String a EmptyString => wenn (is_1_9 a) (digit_val a, EmptyString)
  | String a (String b r as r1) =>
      wenn (Zeichen.eqb a "3" && (Zeichen.eqb b "0" || Zeichen.eqb b "1"))
           (10 * digit_val a + digit_val b, r)
      ++ wenn ((Zeichen.eqb a "1" || Zeichen.eqb a "2") && is_digit b)
           (10 * digit_val a + digit_val b, r)
      ++ wenn (Zeichen.eqb a "0" && is_1_9 b) (digit_val b, r)
      ++ wenn (is_1_9 a) (digit_val a, r1)
      ++ wenn (Zeichen.eqb a " " && is_1_9 b) (digit_val b, r)
  end.

(** [1[0-2]|0[1-9]|[1-9]] *)
Definition re_m (s : string) : list (Z * string) :=
  match s with
  | EmptyString => []
  | String a EmptyString => wenn (is_1_9 a) (digit_val a, EmptyString)
  | String a (String b r as r1) =>
      wenn (Zeichen.eqb a "1"
            && (Zeichen.eqb b "0" || Zeichen.eqb b "1" || Zeichen.eqb b "2"))
           (10 * digit_val a + digit_val b, r)
      ++ wenn (Zeichen.eqb a "0" && is_1_9 b) (digit_val b, r)
      ++ wenn (is_1_9 a) (digit_val a, r1)
  end.

(** [\d\d\d\d] *)
Definition re_Y (s : string) : list (Z * string) :=
  match s with
  | String a (String b (String c (String d r))) =>
      wenn (is_digit a && is_digit b && is_digit c && is_digit d)
           (1000 * digit_val a + 100 * digit_val b
            + 10 * digit_val c + digit_val d, r)
  | _ => []
  end.

(** [\.] *)
Definition re_punkt (s : string) : list string :=
  match s with
  | String a r => wenn (Zeichen.eqb a ".") r
  | EmptyString => []
  end.

(** All matches of the whole expression, first choice first: the
    groups [d], [m], [Y] and the unmatched rest of the input. *)
Definition re_format (s : string) : list (Z * Z * Z * string) :=
  flat_map (fun '(d, s1) =>
    flat_map (fun s2 =>
      flat_map (fun '(m, s3) =>
        flat_map (fun s4 =>
          map (fun '(y, s5) => (d, m, y, s5)) (re_Y s4))
          (re_punkt s3))
        (re_m s2))
      (re_punkt s1))
    (re_d s).

Definition is_leap (y : Z) : bool :=
  (y mod 4 =? 0) && (negb (y mod 100 =? 0) || (y mod 400 =? 0)).

Definition days_in_month (y m : Z) : Z :=
  if m =? 2 then (if is_leap y then 29 else 28)
  else if (m =? 4) || (m =? 6) || (m =? 9) || (m =? 11) then 30
  else 31.

(** The constructor of a date: [year] in 1..9999, [month] in 1..12,
    [day] in 1..[days_in_month]; [None] stands for [ValueError]. *)
Definition make (y m d : Z) : option datetime :=
  if (1 <=? y) && (y <=? 9999) && (1 <=? m) && (m <=? 12)
     && (1 <=? d) && (d <=? days_in_month y m)
  then Some (mk_datetime y m d) else None.

(** [datetime.strptime(s, "%d.%m.%Y")]; [None] stands for the
    [ValueError] which the caller catches. *)
Definition strptime (s : string) : option datetime :=
  match re_format s with
  | [] => None
  | (d, m, y, rest) :: _ =>
      match rest with
      | EmptyString => make y m d
      | String _ _ => None
      end
  end.

End Datetime.

(** ** [re.match(r'^\d{2}\.\d{2}$', s)] *)

Module Re.

Import PyStr.

(** ["\n"], code point 10. *)
Definition LF : zeichen := 10%N.

(** [$] without the MULTILINE flag matches at the end of the string
    and also just before a newline that is the last character. *)
Definition dollar (s : string) : bool :=
  match s with
  | EmptyString => true
  | String c EmptyString => Zeichen.eqb c LF
  | _ => false
  end.

(** Whether the match object is not [None]. *)
Definition match_zeit (s : string) : bool :=
  match s with
  | String a (String b (String p (String c (String d r)))) =>
      is_digit a && is_digit b && Zeichen.eqb p "."
      && is_digit c && is_digit d && dollar r
  | _ => false
  end.

End Re.

(** ** Binary64 numbers

    The operations of Python's [float] are those of the Standard
    Library's specification of IEEE 754 arithmetic at precision 53,
    rounding to nearest, ties to even. *)

Module Fl.

Definition prec : Z := 53.
Definition emax : Z := 1024.

(** [float(n)] for an [int]. *)
Definition of_int (n : Z) : spec_float := binary_normalize prec emax n 0 false.

Definition mul : spec_float -> spec_float -> spec_float := SFmul prec emax.
Definition div : spec_float -> spec_float -> spec_float := SFdiv prec emax.
Definition add : spec_float -> spec_float -> spec_float := SFadd prec emax.
Definition ltb : spec_float -> spec_float -> bool := SFltb.

(** The exact value of a finite number as a fraction [num / 2^k]. *)
Definition zaehler_nenner (f : spec_float) : Z * Z :=
  match f with
  | S754_finite s m e =>
      let v := if s then Z.neg m else Z.pos m in
      if 0 <=? e then (v * 2 ^ e, 1) else (v, 2 ^ (- e))
  | _ => (0, 1)
  end.

(** The integer nearest to [num / den], ties to the even one
    ([den] positive). *)
Definition rund_gerade_q (num den : Z) : Z :=
  let q := num / den in
  let r := num mod den in
  if (den <? 2 * r) || ((2 * r =? den) && Z.odd q) then q + 1 else q.

(** [round(x)] for a finite [float]. *)
Definition rund (f : spec_float) : Z :=
  let '(n, d) := zaehler_nenner f in rund_gerade_q n d.

(** [int(x)] for a finite [float]: towards zero. *)
Definition ganz (f : spec_float) : Z :=
  let '(n, d) := zaehler_nenner f in Z.quot n d.

(** [0.5], [1.5], [5.0], [1000.0] and [1.0]. *)
Definition ein_halb : spec_float := S754_finite false 4503599627370496 (-53).
Definition anderthalb : spec_float := S754_finite false 6755399441055744 (-52).
Definition fuenf : spec_float := of_int 5.
Definition tausend : spec_float := of_int 1000.
Definition eins : spec_float := of_int 1.

(** The literal [0.003], [0x1.89374bc6a7efap-9]. *)
Definition c_0_003 : spec_float := S754_finite false 6917529027641082 (-61).

(** [math.log(10, 2)] and the literal [3.3219280948873626], the same
    number [0x1.a934f0979a372p+1]. *)
Definition log2_10 : spec_float := S754_finite false 7479983001740146 (-51).

(** The format [.kf] of a [float]: the decimal fraction with [k]
    places nearest to the exact value, ties to even. *)
Definition format_f (k : nat) (f : spec_float) : string :=
  match f with
  | S754_nan => "nan"
  | S754_infinity s => if s then "-inf" else "inf"
  | S754_zero s =>
      (if s then "-" else EmptyString)
      ++ "0" ++ (match k with
                 | O => EmptyString
                 | _ => "." ++ PyStr.nullen k
                 end)
  | S754_finite s m e =>
      let '(n, d) := zaehler_nenner (S754_finite false m e) in
      let q := rund_gerade_q (n * 10 ^ Z.of_nat k) d in
      let ganzteil := q / 10 ^ Z.of_nat k in
      let bruch := PyStr.of_int (q mod 10 ^ Z.of_nat k) in
      (if s then "-" else EmptyString)
      ++ PyStr.of_int ganzteil
      ++ (match k with
          | O => EmptyString
          | _ => "." ++ PyStr.nullen (k - Str.length bruch) ++ bruch
          end)
  end.

End Fl.

(** ** [mpmath]: [mp.dps] and [str(mp.pi)]

    [mpmath] is an external library.  The function below is a
    parameter of the embedding (see [Section Finder]); this module
    gives the instance used to run the embedding on concrete inputs.
    It follows the library: the assignment [mp.dps = n] sets the
    working precision in bits [dps_to_prec(n)] and the number of
    printed digits [max(1, n)]; [mp.pi] is [floor(pi * 2^(prec + 20))]
    rounded to [prec] bits, to nearest; [str] expands that binary
    value with [to_digits_exp] to [dps + 3] digits or more and
    [to_str] cuts them to [dps] SIGNIFICANT digits, the leading 3
    included, rounding up when the next digit is 5 or more, puts the
    point after the first digit, and removes trailing zeros (one digit
    is kept after the point).  The number pi itself comes from
    Machin's formula in fixed-point integer arithmetic with guard
    bits. *)

Module Mpmath.

Import PyStr.

(** sum over k of (-1)^k * term_k / (2k+1), term_(k+1) = term_k / x^2 *)
Fixpoint arctan_reihe (fuel : nat) (x2 term k : Z) (plus : bool) (acc : Z) : Z :=
  match fuel with
  | O => acc
  | S fuel' =>
      if term =? 0 then acc
      else
        let t := term / (2 * k + 1) in
        arctan_reihe fuel' x2 (term / x2) (k + 1) (negb plus)
                     (if plus then acc + t else acc - t)
  end.

(** [unity * arctan(1/x)], rounded down up to a few units. *)
Definition arctan_inv (x unity : Z) (fuel : nat) : Z :=
  arctan_reihe fuel (x * x) (unity / x) 0 true 0.

Definition guard : Z := 64.

(** [pi_fixed(wp)]: [floor(pi * 2^wp)]. *)
Definition pi_fixed (wp : Z) : Z :=
  let unity := 2 ^ (wp + guard) in
  let fuel := Z.to_nat (wp + guard + 2) in
  (4 * (4 * arctan_inv 5 unity fuel - arctan_inv 239 unity fuel))
  / 2 ^ guard.

(** [dps_to_prec(n)]:
    [max(1, int(round((int(n) + 1) * 3.3219280948873626)))]. *)
Definition dps_to_prec (n : Z) : Z :=
  Z.max 1 (Fl.rund (Fl.mul (Fl.of_int (n + 1)) Fl.log2_10)).

(** The number of digits [mp.dps = n] stores: [max(1, int(n))]. *)
Definition set_dps (n : Z) : Z := Z.max 1 n.

(** [bitcount(v)]. *)
Definition bitcount (v : Z) : Z := if v =? 0 then 0 else Z.log2 v + 1.

(** [mpf_pi(prec, 'n')]: mantissa and exponent of
    [normalize(0, v, -wp, bitcount(v), prec, 'n')] for
    [v = pi_fixed(wp)], [wp = prec + 20], before the trailing zero
    bits are removed. *)
Definition mpf_pi (prec : Z) : Z * Z :=
  let wp := prec + 20 in
  let v := pi_fixed wp in
  let n := bitcount v - prec in
  if 0 <? n then
    let q := v / 2 ^ n in
    let r := v mod 2 ^ n in
    let h := 2 ^ (n - 1) in
    (if (h <? r) || ((r =? h) && Z.odd q) then q + 1 else q, - wp + n)
  else (v, - wp).

(** [to_digits_exp(s, dps)] for a positive [s = man * 2^exp] with
    [|exp + bitcount(man)| <= 3500]: the digit string and the decimal
    exponent. *)
Definition to_digits_exp (man exp dps : Z) : string * Z :=
  let bc := bitcount man in
  let bitprec := Fl.ganz (Fl.mul (Fl.of_int dps) Fl.log2_10) + 10 in
  let fixprec := Z.max (bitprec - exp - bc) 0 in
  let fixdps :=
    Fl.ganz (Fl.add (Fl.div (Fl.of_int fixprec) Fl.log2_10) Fl.ein_halb) in
  let offset := exp + fixprec in
  let sf := if 0 <=? offset then Z.shiftl man offset
            else Z.shiftr man (- offset) in
  let sd := Z.shiftr (sf * 10 ^ fixdps) fixprec in
  let digits := of_int sd in
  (digits, len digits - fixdps - 1).

(** [digits.rstrip('0')] *)
Fixpoint rstrip_0 (s : string) : string :=
  match s with
  | EmptyString => EmptyString
  | String c s' =>
      match rstrip_0 s' with
      | EmptyString => if Zeichen.eqb c "0" then EmptyString
                       else String c EmptyString
      | r => String c r
      end
  end.

(** [digits[-1] == "."] *)
Fixpoint endet_mit_punkt (s : string) : bool :=
  match s with
  | EmptyString => false
  | String c EmptyString => Zeichen.eqb c "."
  | String _ s' => endet_mit_punkt s'
  end.

(** [c in '56789'] *)
Definition in_56789 (c : zeichen) : bool :=
  Zeichen.eqb c "5" || Zeichen.eqb c "6" || Zeichen.eqb c "7"
  || Zeichen.eqb c "8" || Zeichen.eqb c "9".

(** [str(int(c) + 1)] for a digit [c] other than 9. *)
Definition nachfolger (c : zeichen) : zeichen := (c + 1)%N.

(** The loop that rounds a digit string up: the digits after the last
    one that is not 9 become 0 and that one is increased; [None] when
    all digits are 9. *)
Fixpoint aufrunden (s : string) : option string :=
  match s with
  | EmptyString => None
  | String c s' =>
      match aufrunden s' with
      | Some r => Some (String c r)
      | None =>
          if Zeichen.eqb c "9" then None
          else Some (String (nachfolger c) (nullen (Str.length s')))
      end
  end.

(** The rounding step of [to_str]: the digits cut to [n] places,
    rounded up when the digit after them is 5 or more, and the change
    of the exponent (1 when all [n] digits were 9). *)
Definition gerundet (n : nat) (digits : string) : string * Z :=
  if Nat.ltb n (Str.length digits)
     && match Str.get n digits with
        | Some c => in_56789 c
        | None => false
        end
  then match aufrunden (take n digits) with
       | Some r => (r, 0)
       | None => (String "1" (nullen (n - 1)), 1)
       end
  else (take n digits, 0).

(** The clean-up step of [to_str]: trailing zeros are removed, and a
    0 is put back after a point left at the end. *)
Definition bereinigt (digits : string) : string :=
  let d := rstrip_0 digits in
  if endet_mit_punkt d then d ++ "0" else d.

(** [to_str(s, dps)] for the digits and the exponent (0 or more) that
    [to_digits_exp(s, dps + 3)] gave. *)
Definition to_str (digits : string) (exponent0 dps : Z) : string :=
  let n := Z.to_nat dps in
  let '(digits, de) := gerundet n digits in
  let exponent := exponent0 + de in
  let fest := exponent <? dps in
  let split := if fest then Z.to_nat (exponent + 1) else 1%nat in
  let digits :=
    if fest && Nat.ltb n split then digits ++ nullen (split - n)
    else digits in
  let exponent := if fest then 0 else exponent in
  let digits := bereinigt (take split digits ++ "." ++ drop split digits) in
  if exponent =? 0 then digits
  else digits ++ "e+" ++ of_int exponent.

(** [str(mp.pi)] when the context holds the precision [prec] and the
    number of digits [dps] (at least 1). *)
Definition pi_str (prec dps : Z) : string :=
  let '(man, exp) := mpf_pi prec in
  let '(digits, exponent) := to_digits_exp man exp (dps + 3) in
  to_str digits exponent dps.

(** [str(mp.pi)] right after the assignment [mp.dps = n]. *)
Definition pi_str_nach (n : Z) : string :=
  pi_str (dps_to_prec n) (set_dps n).


End Mpmath.

(** ** The world outside the function

    The working precision in bits and the number of digits that the
    global [mp] holds (both are set by an assignment to [mp.dps]), and
    the record of the library calls made, in the order in which they
    were made. *)

Inductive Aufruf : Type :=
| Ruf_strptime (s : string)      (* datetime.strptime(s, "%d.%m.%Y") *)
| Ruf_replace (s : string)       (* s.replace(".", empty) *)
| Ruf_re_match (s : string)      (* re.match(r'^\d{2}\.\d{2}$', s) *)
| Ruf_set_dps (n : Z)            (* mp.dps = n *)
| Ruf_str_pi (dps : Z)           (* str(mp.pi), computed at mp.dps = dps *)
| Ruf_find (sub : string).       (* nachkommastellen.find(sub) *)

Record Welt : Type :=
  mk_Welt { mp_prec : Z; mp_dps : Z; protokoll : list Aufruf }.

Definition M (A : Type) : Type := Welt -> A * Welt.

Definition ret {A} (x : A) : M A := fun w => (x, w).

Definition bind {A B} (c : M A) (k : A -> M B) : M B :=
  fun w => let '(x, w') := c w in k x w'.

Notation "x <- c ;; k" := (bind c (fun x => k))
  (at level 61, c at next level, right associativity).
Notation "c ;;; k" := (bind c (fun _ => k))
  (at level 61, right associativity).

Definition notiere (a : Aufruf) : M unit :=
  fun w => (tt, mk_Welt (mp_prec w) (mp_dps w) (protokoll w ++ [a])).

Definition lies_dps : M Z := fun w => (mp_dps w, w).

Definition lies_prec : M Z := fun w => (mp_prec w, w).

Definition setze_dps (n : Z) : M unit :=
  fun w => (tt, mk_Welt (Mpmath.dps_to_prec n) (Mpmath.set_dps n)
                        (protokoll w ++ [Ruf_set_dps n])).

(** ** The returned dictionary *)

(** The keys of a result with ["gefunden": True]. *)
Record Treffer : Type := mk_Treffer {
  suchstring : string;
  position : Z;
  laenge : Z;
  schreib_dauer : string;
  buch_position : string;
  wanderung : string;
  kontext : string;
  pi_position : string
}.

Inductive Ergebnis : Type :=
| Fehler (fehler : string)                              (* {"fehler": ...} *)
| Nicht_gefunden (suchstring nachricht tipp : string)   (* "gefunden": False *)
| Gefunden (t : Treffer).                               (* "gefunden": True *)

(** The value under ["gefunden"], when the key is there. *)
Definition gefunden (e : Ergebnis) : option bool :=
  match e with
  | Fehler _ => None
  | Nicht_gefunden _ _ _ => Some false
  | Gefunden _ => Some true
  end.

(** The value under ["position"], when the key is there. *)
Definition position_von (e : Ergebnis) : option Z :=
  match e with
  | Gefunden t => Some (position t)
  | _ => None
  end.

(** The value under ["suchstring"], when the key is there. *)
Definition suchstring_von (e : Ergebnis) : option string :=
  match e with
  | Fehler _ => None
  | Nicht_gefunden s _ _ => Some s
  | Gefunden t => Some (suchstring t)
  end.

(** Letters outside ASCII, by code point. *)
Definition oe : string := String 246%N EmptyString.
Definition ue : string := String 252%N EmptyString.

Definition fehler_datum : string :=
  "Ung" ++ ue ++ "ltiges Datumsformat. Bitte DD.MM.YYYY verwenden.".

Definition fehler_zeit : string :=
  "Ung" ++ ue ++ "ltiges Zeitformat. Bitte HH.MM verwenden.".

(** ** The function *)

Section Finder.

(** [str(mp.pi)] as a function of the precision in bits and of the
    number of digits that [mp] holds. *)
Variable str_mp_pi : Z -> Z -> string.

Definition strptime (s : string) : M (option Datetime.datetime) :=
  notiere (Ruf_strptime s) ;;; ret (Datetime.strptime s).

Definition replace (s : string) : M string :=
  notiere (Ruf_replace s) ;;; ret (PyStr.replace_punkt s).

Definition re_match (s : string) : M bool :=
  notiere (Ruf_re_match s) ;;; ret (Re.match_zeit s).

Definition str_pi : M string :=
  prec <- lies_prec ;;
  dps <- lies_dps ;;
  notiere (Ruf_str_pi dps) ;;;
  ret (str_mp_pi prec dps).

Definition find (s sub : string) : M Z :=
  notiere (Ruf_find sub) ;;; ret (PyStr.find s sub).

(** Truth value of [geburtszeit] in [if geburtszeit:]. *)
Definition wahr (geburtszeit : option string) : bool :=
  match geburtszeit with
  | None => false
  | Some EmptyString => false
  | Some (String _ _) => true
  end.

(** Lines 43 to 49: the result when [find] returned -1. *)
Definition nicht_gefunden (suchstring : string) (max_stellen : Z) : Ergebnis :=
  Nicht_gefunden suchstring
    ("Die Zahlenfolge '" ++ suchstring ++ "' wurde in den ersten "
     ++ PyStr.of_int max_stellen
     ++ " Nachkommastellen von Pi nicht gefunden.")
    ("Versuche es mit mehr Nachkommastellen (erh" ++ oe
     ++ "he max_stellen).").

(** Lines 61 to 70.  The two numbers are [int]s printed with the
    format [.0f], which prints an [int] below 2^53 as it is. *)
Definition sekunden_pro_ziffer : Z := 2.

Definition schreib_dauer_text (position : Z) : string :=
  let zeit_sekunden := position * sekunden_pro_ziffer in
  let stunden := zeit_sekunden / 3600 in
  let minuten := (zeit_sekunden mod 3600) / 60 in
  "Wenn du eine Ziffer pro " ++ PyStr.of_int sekunden_pro_ziffer
  ++ " Sekunden schreibst, w" ++ ue ++ "rdest du "
  ++ PyStr.of_int stunden ++ " Stunden und " ++ PyStr.of_int minuten
  ++ " Minuten brauchen, um bis zu deinem Geburtsdatum zu kommen.".

(** Lines 72 to 80. *)
Definition ziffern_pro_seite : Z := 50 * 80.

Definition seite (position : Z) : Z := position / ziffern_pro_seite + 1.

Definition zeile (position : Z) : Z :=
  (position mod ziffern_pro_seite) / 80 + 1.

Definition buch_position_text (position : Z) : string :=
  "In einem Buch mit 80 Zeichen pro Zeile und 50 Zeilen pro Seite w"
  ++ ue ++ "rdest du " ++ "dein Geburtsdatum auf Seite "
  ++ PyStr.of_int (seite position) ++ ", Zeile "
  ++ PyStr.of_int (zeile position) ++ " finden.".

(** Lines 82 to 96.  [position * meter_pro_ziffer] converts the [int]
    to a [float]; an offset is smaller than the greatest length of a
    [str], 2^63, so that the conversion cannot overflow. *)
Definition meter_pro_ziffer : spec_float := Fl.c_0_003.

Definition wanderung_text (position : Z) : string :=
  let strecke_meter := Fl.mul (Fl.of_int position) meter_pro_ziffer in
  let strecke_km := Fl.div strecke_meter Fl.tausend in
  if Fl.ltb strecke_km Fl.eins then
    "Wenn jede Ziffer 3mm groß wäre, müsstest du "
    ++ Fl.format_f 1 strecke_meter ++ " Meter laufen "
    ++ "(etwa " ++ Fl.format_f 0 (Fl.div strecke_meter Fl.anderthalb)
    ++ " Schritte)."
  else
    "Wenn jede Ziffer 3mm groß wäre, müsstest du "
    ++ Fl.format_f 2 strecke_km ++ " km laufen "
    ++ "(etwa " ++ Fl.format_f 1 (Fl.div strecke_km Fl.fuenf)
    ++ " Stunden Fußweg).".

(** Lines 98 to 112. *)
Definition kontext_text (nachkommastellen suchstring : string)
                        (position : Z) : string :=
  let start := Z.max 0 (position - 10) in
  let ende := Z.min (PyStr.len nachkommastellen)
                    (position + PyStr.len suchstring + 10) in
  let kontext := PyStr.slice nachkommastellen (Some start) (Some ende) in
  let markierung_start := position - start in
  let markierung_ende := markierung_start + PyStr.len suchstring in
  let kontext_markiert :=
    PyStr.slice kontext None (Some markierung_start)
    ++ ("[" ++ PyStr.slice kontext (Some markierung_start)
                                   (Some markierung_ende) ++ "]")
    ++ PyStr.slice kontext (Some markierung_ende) None in
  "..." ++ kontext_markiert ++ "...".

(** Line 113. *)
Definition pi_position_text (nachkommastellen suchstring : string)
                            (position : Z) : string :=
  "3," ++ PyStr.slice nachkommastellen None (Some position)
  ++ "[" ++ suchstring ++ "]...".

(** Lines 43 to 115: the dictionary built from the outcome of the
    search. *)
Definition zusammenstellen (nachkommastellen suchstring : string)
                           (position max_stellen : Z) : Ergebnis :=
  if position =? -1 then nicht_gefunden suchstring max_stellen
  else
    Gefunden {|
      suchstring := suchstring;
      position := position;
      laenge := PyStr.len suchstring;
      schreib_dauer := schreib_dauer_text position;
      buch_position := buch_position_text position;
      wanderung := wanderung_text position;
      kontext := kontext_text nachkommastellen suchstring position;
      pi_position := pi_position_text nachkommastellen suchstring position
    |}.

(** Lines 33 to 115, reached once the inputs are validated.  [None]
    stands for the [IndexError] of [pi_str.split('.')[1]] on a text
    without a point. *)
Definition suche (suchstring : string) (max_stellen : Z)
  : M (option Ergebnis) :=
  setze_dps (max_stellen + 100) ;;;
  pi_str <- str_pi ;;
  match PyStr.split_punkt_1 pi_str with
  | None => ret None
  | Some nachkommastellen =>
      position <- find nachkommastellen suchstring ;;
      ret (Some (zusammenstellen nachkommastellen suchstring
                                 position max_stellen))
  end.

(** [finde_geburtsdatum_in_pi(geburtsdatum, geburtszeit, max_stellen)]. *)
Definition finde_geburtsdatum_in_pi
    (geburtsdatum : string) (geburtszeit : option string)
    (max_stellen : Z) : M (option Ergebnis) :=
  datum_obj <- strptime geburtsdatum ;;
  match datum_obj with
  | None => ret (Some (Fehler fehler_datum))
  | Some _ =>
      suchstring <- replace geburtsdatum ;;
      if wahr geburtszeit then
        let zeit := match geburtszeit with Some z => z | None => EmptyString end in
        ok <- re_match zeit ;;
        if negb ok then ret (Some (Fehler fehler_zeit))
        else
          zeit_ohne <- replace zeit ;;
          suche (suchstring ++ zeit_ohne) max_stellen
      else suche suchstring max_stellen
  end.

End Finder.

(** The function run on [mpmath]'s printing of pi, from a world in
    which [mp] has its initial precision of 53 bits and 15 digits and
    nothing was called. *)
Definition welt0 : Welt := mk_Welt 53 15 [].

Definition lauf (geburtsdatum : string) (geburtszeit : option string)
                (max_stellen : Z) : option Ergebnis * Welt :=
  finde_geburtsdatum_in_pi Mpmath.pi_str
    geburtsdatum geburtszeit max_stellen welt0.

(** ** Notions used to state the properties *)

(** The string that [geburtszeit] holds when it is not [None]. *)
Definition zeit_von (geburtszeit : option string) : string :=
  match geburtszeit with Some z => z | None => EmptyString end.

(** The value of [suchstring] at line 33, for inputs that passed both
    validations. *)
Definition muster (geburtsdatum : string) (geburtszeit : option string) : string :=
  if wahr geburtszeit
  then PyStr.replace_punkt geburtsdatum
       ++ PyStr.replace_punkt (zeit_von geburtszeit)
  else PyStr.replace_punkt geburtsdatum.

(** The value of [nachkommastellen] at line 38, [None] when line 38
    raises. *)
Definition nachkommastellen_von (str_mp_pi : Z -> Z -> string) (max_stellen : Z)
  : option string :=
  PyStr.split_punkt_1
    (str_mp_pi (Mpmath.dps_to_prec (max_stellen + 100))
               (Mpmath.set_dps (max_stellen + 100))).

(** The calls recorded during a run started in [w] and ended in [w']. *)
Definition neue_rufe (w w' : Welt) : list Aufruf :=
  skipn (List.length (protokoll w)) (protokoll w').

(** Calls that compute pi or set its precision. *)
Definition ist_pi_ruf (a : Aufruf) : bool :=
  match a with
  | Ruf_set_dps _ | Ruf_str_pi _ => true
  | _ => false
  end.

(** Calls that build (a part of) the search pattern. *)
Definition ist_muster_ruf (a : Aufruf) : bool :=
  match a with
  | Ruf_replace _ => true
  | _ => false
  end.

Definition ist_re_match (a : Aufruf) : bool :=
  match a with
  | Ruf_re_match _ => true
  | _ => false
  end.

(** [n] written in decimal and filled with zeros on the left to at
    least [k] characters. *)
Definition pad (k : nat) (n : Z) : string :=
  let s := PyStr.of_int n in
  PyStr.nullen (k - Str.length s) ++ s.

(** The pattern as the specification words it: day, month and year
    padded to 2, 2 and 4 digits, then the two components of the time
    padded to 2 digits each. *)
Definition muster_laut_spec (d : Datetime.datetime) (zeit : option (Z * Z))
  : string :=
  pad 2 (Datetime.day d) ++ pad 2 (Datetime.month d)
  ++ pad 4 (Datetime.year d)
  ++ match zeit with
     | Some (h, m) => pad 2 h ++ pad 2 m
     | None => EmptyString
     end.

(** The shape ##.## as the specification words it: two digits, a
    point, two digits, and nothing else; the digits are 0 to 9. *)
Definition form_hh_mm (s : string) : bool :=
  match s with
  | String a (String b (String p (String c (String d EmptyString)))) =>
      PyStr.ist_0_9 a && PyStr.ist_0_9 b && Zeichen.eqb p "."
      && PyStr.ist_0_9 c && PyStr.ist_0_9 d
  | _ => false
  end.

(** The two components of a time of the shape ##.##. *)
Definition zeit_komponenten (s : string) : option (Z * Z) :=
  match s with
  | String a (String b (String p (String c (String d EmptyString)))) =>
      if form_hh_mm s
      then Some (10 * PyStr.digit_val a + PyStr.digit_val b,
                 10 * PyStr.digit_val c + PyStr.digit_val d)
      else None
  | _ => None
  end.

(** A date written with a two-digit day, a two-digit month and a
    four-digit year, in the digits 0 to 9: DD.MM.YYYY. *)
Definition form_dd_mm_yyyy (s : string) : bool :=
  match s with
  | String d1 (String d2 (String p1 (String m1 (String m2 (String p2
      (String y1 (String y2 (String y3 (String y4 EmptyString))))))))) =>
      PyStr.ist_0_9 d1 && PyStr.ist_0_9 d2 && Zeichen.eqb p1 "."
      && PyStr.ist_0_9 m1 && PyStr.ist_0_9 m2 && Zeichen.eqb p2 "."
      && PyStr.ist_0_9 y1 && PyStr.ist_0_9 y2
      && PyStr.ist_0_9 y3 && PyStr.ist_0_9 y4
  | _ => false
  end.

(** The shape ##.## read with the class [\d] of a pattern on [str]:
    the decimal digits of any script. *)
Definition form_zz_zz (s : string) : bool :=
  match s with
  | String a (String b (String p (String c (String d EmptyString)))) =>
      PyStr.is_digit a && PyStr.is_digit b && Zeichen.eqb p "."
      && PyStr.is_digit c && PyStr.is_digit d
  | _ => false
  end.

(** [s] without its last character, when that is a line feed. *)
Fixpoint ohne_LF (s : string) : option string :=
  match s with
  | EmptyString => None
  | String c EmptyString =>
      if Zeichen.eqb c Re.LF then Some EmptyString else None
  | String c s' => option_map (String c) (ohne_LF s')
  end.

(** The times on which the time check of the code and the shape ##.##
    disagree: the empty string, a time of the shape written in decimal
    digits other than 0 to 9, and a time of the shape (in any decimal
    digits) followed by one line feed. *)
Definition zeit_ausnahme (z : string) : bool :=
  Str.eqb z EmptyString
  || (form_zz_zz z && negb (form_hh_mm z))
  || match ohne_LF z with
     | Some z' => form_zz_zz z'
     | None => false
     end.


Section Rein.

Variable str_mp_pi : Z -> Z -> string.

(** The value returned, as a function of the inputs alone. *)
Definition rueckgabe (geburtsdatum : string) (geburtszeit : option string)
                     (max_stellen : Z) : option Ergebnis :=
  match Datetime.strptime geburtsdatum with
  | None => Some (Fehler fehler_datum)
  | Some _ =>
      if wahr geburtszeit && negb (Re.match_zeit (zeit_von geburtszeit))
      then Some (Fehler fehler_zeit)
      else
        match nachkommastellen_von str_mp_pi max_stellen with
        | None => None
        | Some nk =>
            let sm := muster geburtsdatum geburtszeit in
            Some (zusammenstellen nk sm (PyStr.find nk sm)
                                  max_stellen)
        end
  end.

(** The calls of a run, in order, as a function of the inputs alone. *)
Definition rufe (geburtsdatum : string) (geburtszeit : option string)
                (max_stellen : Z) : list Aufruf :=
  let rufe_suche sm :=
    ([Ruf_set_dps (max_stellen + 100);
      Ruf_str_pi (Mpmath.set_dps (max_stellen + 100))]
     ++ match nachkommastellen_von str_mp_pi max_stellen with
        | None => []
        | Some _ => [Ruf_find sm]
        end)%list in
  Ruf_strptime geburtsdatum ::
  match Datetime.strptime geburtsdatum with
  | None => []
  | Some _ =>
      Ruf_replace geburtsdatum ::
      if wahr geburtszeit then
        Ruf_re_match (zeit_von geburtszeit) ::
        if Re.match_zeit (zeit_von geburtszeit)
        then Ruf_replace (zeit_von geburtszeit)
             :: rufe_suche (muster geburtsdatum geburtszeit)
        else []
      else rufe_suche (muster geburtsdatum geburtszeit)
  end.

(** Whether a run gets as far as line 34. *)
Definition validiert (geburtsdatum : string) (geburtszeit : option string)
  : bool :=
  match Datetime.strptime geburtsdatum with
  | None => false
  | Some _ => negb (wahr geburtszeit
                    && negb (Re.match_zeit (zeit_von geburtszeit)))
  end.

End Rein.

(** The dictionary of a run, when it is one with ["gefunden": True]. *)
Definition treffer_von (r : option Ergebnis * Welt) : option Treffer :=
  match fst r with
  | Some (Gefunden t) => Some t
  | _ => None
  end.

(** The literal text before the page number in ["buch_position"]. *)
Definition buch_anfang : string :=
  "In einem Buch mit 80 Zeichen pro Zeile und 50 Zeilen pro Seite w"
  ++ ue ++ "rdest du dein Geburtsdatum auf Seite ".

(** The digits 0 to 9. *)
Definition ziffern : list zeichen :=
  ["0"; "1"; "2"; "3"; "4"; "5"; "6"; "7"; "8"; "9"]%zeichen.

(** Padding gives back the digits a number was read from (a check
    over all digit pairs and all digit quadruples). *)
Definition pad2_probe : bool :=
  forallb (fun a => forallb (fun b =>
    Str.eqb (pad 2 (10 * PyStr.digit_val a + PyStr.digit_val b))
               (String a (String b EmptyString))) ziffern) ziffern.

Definition pad4_probe : bool :=
  forallb (fun a => forallb (fun b => forallb (fun c => forallb (fun d =>
    Str.eqb (pad 4 (1000 * PyStr.digit_val a + 100 * PyStr.digit_val b
                       + 10 * PyStr.digit_val c + PyStr.digit_val d))
               (String a (String b (String c (String d EmptyString)))))
    ziffern) ziffern) ziffern) ziffern.

(** The dictionary returned for the date 23.07.8164, no time and the
    budget 8. *)
Definition treffer_23078164 : Treffer :=
  Eval vm_compute in
    match treffer_von (lauf "23.07.8164" None 8) with
    | Some t => t
    | None => mk_Treffer EmptyString 0 0 EmptyString EmptyString EmptyString EmptyString EmptyString
    end.

(** Whether [sm] stands in [nk] at the offset [i], that is
    [nk[i:].startswith(sm)] for an offset that is not negative. *)
Definition steht_an (nk sm : string) (i : Z) : bool :=
  (0 <=? i) && PyStr.startswith sm (PyStr.drop (Z.to_nat i) nk).

(** [int(s)] for a string of digits. *)
Fixpoint int_ab (acc : Z) (s : string) : Z :=
  match s with
  | EmptyString => acc
  | String c s' => int_ab (10 * acc + PyStr.digit_val c) s'
  end.

Definition int_von (s : string) : Z := int_ab 0 s.

(** Whether every character of [s] is a digit. *)
Fixpoint alle_ziffern (s : string) : bool :=
  match s with
  | EmptyString => true
  | String c s' => PyStr.is_digit c && alle_ziffern s'
  end.

(** The texts the day group of the date expression can match: one
    digit 1..9, two digits, or a space and a digit 1..9. *)
Definition tag_form (s : string) : bool :=
  match s with
  | String a EmptyString => Datetime.is_1_9 a
  | String a (String b EmptyString) =>
      (PyStr.is_digit a && PyStr.is_digit b)
      || (Zeichen.eqb a " " && Datetime.is_1_9 b)
  | _ => false
  end.

(** The texts the month group can match: one digit 1..9 or two
    digits. *)
Definition monat_form (s : string) : bool :=
  match s with
  | String a EmptyString => Datetime.is_1_9 a
  | String a (String b EmptyString) => PyStr.is_digit a && PyStr.is_digit b
  | _ => false
  end.

(** The texts the year group can match: four digits. *)
Definition jahr_form (s : string) : bool :=
  match s with
  | String a (String b (String c (String d EmptyString))) =>
      PyStr.is_digit a && PyStr.is_digit b
      && PyStr.is_digit c && PyStr.is_digit d
  | _ => false
  end.

(** ** The script (lines 119 to 157)

    Printed text is a sequence of code points, so that the pictographs
    of the messages, which lie above 255, have a place.  The text the
    user types is the argument [message]. *)

Definition Text : Type := list N.

Fixpoint text (s : string) : Text :=
  match s with
  | EmptyString => []
  | String c s' => c :: text s'
  end.

(** ["=" * 70] *)
Fixpoint mal (c : zeichen) (n : nat) : string :=
  match n with
  | O => EmptyString
  | S n' => String c (mal c n')
  end.

Definition zeilenende : Text := [10%N].

(** The values a result dictionary holds. *)
Inductive Wert : Type :=
| W_bool (b : bool)
| W_int (n : Z)
| W_str (s : string).

(** [ergebnis[key]]; [None] stands for [KeyError]. *)
Definition eintrag (e : Ergebnis) (key : string) : option Wert :=
  match e with
  | Fehler f =>
      if Str.eqb key "fehler" then Some (W_str f) else None
  | Nicht_gefunden s n tp =>
      if Str.eqb key "gefunden" then Some (W_bool false)
      else if Str.eqb key "suchstring" then Some (W_str s)
      else if Str.eqb key "nachricht" then Some (W_str n)
      else if Str.eqb key "tipp" then Some (W_str tp)
      else None
  | Gefunden t =>
      if Str.eqb key "gefunden" then Some (W_bool true)
      else if Str.eqb key "suchstring" then Some (W_str (suchstring t))
      else if Str.eqb key "position" then Some (W_int (position t))
      else if Str.eqb key "laenge" then Some (W_int (laenge t))
      else if Str.eqb key "schreib_dauer"
           then Some (W_str (schreib_dauer t))
      else if Str.eqb key "buch_position"
           then Some (W_str (buch_position t))
      else if Str.eqb key "wanderung" then Some (W_str (wanderung t))
      else if Str.eqb key "kontext" then Some (W_str (kontext t))
      else if Str.eqb key "pi_position" then Some (W_str (pi_position t))
      else None
  end.

(** The truth value of [ergebnis.get(key)], which is [None] for a
    missing key. *)
Definition get_wahr (e : Ergebnis) (key : string) : bool :=
  match eintrag e key with
  | Some (W_bool b) => b
  | Some (W_int n) => negb (n =? 0)
  | Some (W_str s) => negb (Str.eqb s EmptyString)
  | None => false
  end.

(** A value inside an f-string. *)
Definition fmt (v : Wert) : Text :=
  match v with
  | W_bool true => text "True"
  | W_bool false => text "False"
  | W_int n => text (PyStr.of_int n)
  | W_str s => text s
  end.

Inductive Ausgabe : Type :=
| Zeile (t : Text)              (* print(t) *)
| Eingabe_text (t : Text).      (* the prompt written by input(t) *)

Inductive Ende : Type :=
| Beendet
| KeyError (key : string)
| IndexError.

(** One [print(f"...{ergebnis[key]}...")]: the line, or the key that
    is missing. *)
Definition zeile_mit (e : Ergebnis) (vor : Text) (key : string) (nach : Text)
  : string + Ausgabe :=
  match eintrag e key with
  | Some v => inr (Zeile (vor ++ fmt v ++ nach)%list)
  | None => inl key
  end.

(** A sequence of such prints: the lines printed, and the key whose
    absence ended the sequence, if any. *)
Fixpoint drucke (l : list (string + Ausgabe)) : list Ausgabe * option string :=
  match l with
  | [] => ([], None)
  | inl key :: _ => ([], Some key)
  | inr a :: l' => let '(aus, k) := drucke l' in (a :: aus, k)
  end.

(** Lines 130 to 138 (and 145 to 153). *)
Definition bericht (e : Ergebnis) : list Ausgabe * option string :=
  if get_wahr e "gefunden" then
    drucke
      [zeile_mit e (zeilenende ++ [9989%N]
                    ++ text " Gefunden! Deine Zahlenfolge: ")%list
                 "suchstring" [];
       zeile_mit e ([128205%N] ++ text " Position: An Stelle ")%list
                 "position" (text " nach dem Komma");
       zeile_mit e (zeilenende ++ [128269%N] ++ text " In Pi: ")%list
                 "kontext" [];
       zeile_mit e (zeilenende ++ [9201%N; 65039%N] ++ text "  ")%list
                 "schreib_dauer" [];
       zeile_mit e (zeilenende ++ [128214%N] ++ text " ")%list
                 "buch_position" [];
       zeile_mit e (zeilenende ++ [128694%N] ++ text " ")%list
                 "wanderung" []]
  else
    drucke
      [zeile_mit e (zeilenende ++ [10060%N] ++ text " ")%list
                 "nachricht" []].

(** The default of the parameter [max_stellen]. *)
Definition max_stellen_vorgabe : Z := 1000000.

(** Calls of [str(mp.pi)]. *)
Definition ist_str_pi (a : Aufruf) : bool :=
  match a with
  | Ruf_str_pi _ => true
  | _ => false
  end.

Definition kopf : list Ausgabe :=
  [Zeile (text (mal "=" 70));
   Zeile (text "PI GEBURTSDATUM FINDER");
   Zeile (text (mal "=" 70));
   Zeile (zeilenende ++ [128197%N]
          ++ text " Beispiel 1: Nur Geburtsdatum. Gib dein Geburtsdatum im Format DD.MM.YYY ein:")%list;
   Zeile zeilenende;
   Eingabe_text (text "Gib dein Geburtsdatum im Format DD.MM.YYY ein:")].

Definition mitte : list Ausgabe :=
  [Zeile (zeilenende ++ text (mal "=" 70))%list;
   Zeile (zeilenende ++ [128197%N]
          ++ text " Beispiel 2: Geburtsdatum mit Uhrzeit")%list].

Definition schluss : list Ausgabe :=
  [Zeile (zeilenende ++ text (mal "=" 70))%list;
   Zeile (zeilenende ++ [128161%N]
          ++ text " Probiere es mit deinem eigenen Geburtsdatum!")%list;
   Zeile (text "   Beispiel: finde_geburtsdatum_in_pi('19.12.1995', '15.56')")].

Section Skript.

Variable str_mp_pi : Z -> Z -> string.

(** One example: the call, then the report.  The result is how the
    script goes on ([None]) or ends, and what was printed. *)
Definition beispiel (geburtsdatum : string) (geburtszeit : option string)
                    (w : Welt) : option Ende * list Ausgabe * Welt :=
  let '(r, w') := finde_geburtsdatum_in_pi str_mp_pi
                    geburtsdatum geburtszeit max_stellen_vorgabe w in
  match r with
  | None => (Some IndexError, [], w')
  | Some ergebnis =>
      match bericht ergebnis with
      | (aus, Some key) => (Some (KeyError key), aus, w')
      | (aus, None) => (None, aus, w')
      end
  end.

(** The body of [if __name__ == "__main__":], for the line [message]
    read by [input]. *)
Definition hauptprogramm (message : string) (w : Welt)
  : Ende * list Ausgabe * Welt :=
  let '(e1, aus1, w1) := beispiel message None w in
  match e1 with
  | Some ende => (ende, kopf ++ aus1, w1)%list
  | None =>
      let '(e2, aus2, w2) :=
        beispiel "01.01.2000" (Some "12.30") w1 in
      match e2 with
      | Some ende => (ende, kopf ++ aus1 ++ mitte ++ aus2, w2)%list
      | None =>
          (Beendet, kopf ++ aus1 ++ mitte ++ aus2 ++ schluss, w2)%list
      end
  end.

End Skript.

(** ** Runs on concrete inputs *)

Example slice_neg : PyStr.slice "abcdef" (Some (-3)) None = "def".
Proof. reflexivity. Qed.

Example find_ex : PyStr.find "3141592" "159" = 3 /\ PyStr.find "314" "7" = -1.
Proof. split; reflexivity. Qed.

Example of_int_ex : PyStr.of_int 0 = "0" /\ PyStr.of_int 4021 = "4021".
Proof. split; reflexivity. Qed.

Example strptime_ok :
  Datetime.strptime "15.03.1990" = Some (Datetime.mk_datetime 1990 3 15)
  /\ Datetime.strptime "1.3.1990" = Some (Datetime.mk_datetime 1990 3 1)
  /\ Datetime.strptime " 5.12.2001" = Some (Datetime.mk_datetime 2001 12 5).
Proof. repeat split; reflexivity. Qed.

Example strptime_bad :
  Datetime.strptime "31.02.2000" = None
  /\ Datetime.strptime "29.02.1900" = None
  /\ Datetime.strptime "15.03.90" = None
  /\ Datetime.strptime "15.03.19900" = None
  /\ Datetime.strptime "15/03/1990" = None
  /\ Datetime.strptime "01.01.0000" = None.
Proof. repeat split; reflexivity. Qed.

Example match_zeit_ex :
  Re.match_zeit "14.30" = true /\ Re.match_zeit "99.99" = true
  /\ Re.match_zeit "14:30" = false /\ Re.match_zeit "14.3" = false
  /\ Re.match_zeit "14.300" = false /\ Re.match_zeit EmptyString = false
  /\ Re.match_zeit (Str.append "14.30" (String Re.LF EmptyString)) = true.
Proof. repeat split; reflexivity. Qed.

Example strptime_unicode :
  Datetime.strptime "15.03.١٩٩٠" = Some (Datetime.mk_datetime 1990 3 15)
  /\ Datetime.strptime "1٥.03.1990" = Some (Datetime.mk_datetime 1990 3 15)
  /\ Datetime.strptime "٣1.03.1990" = None
  /\ Datetime.strptime "15.0٣.1990" = None
  /\ Re.match_zeit "١٢.٣٠" = true
  /\ PyStr.len "١٢.٣٠" = 5.
Proof. repeat split; reflexivity. Qed.

Example dps_to_prec_ex :
  Mpmath.dps_to_prec 15 = 53 /\ Mpmath.dps_to_prec 109 = 365
  /\ Mpmath.dps_to_prec 1 = 7 /\ Mpmath.dps_to_prec (-1) = 1.
Proof. repeat split; reflexivity. Qed.

Example pi_str_15 : Mpmath.pi_str 53 15 = "3.14159265358979".
Proof. vm_compute. reflexivity. Qed.

Example pi_str_small :
  Mpmath.pi_str_nach 1 = "3.0" /\ Mpmath.pi_str_nach 2 = "3.1"
  /\ Mpmath.pi_str_nach 3 = "3.14" /\ Mpmath.pi_str_nach 4 = "3.142"
  /\ Mpmath.pi_str_nach 0 = "3.0" /\ Mpmath.pi_str_nach (-1) = "4.0".
Proof. vm_compute. repeat split; reflexivity. Qed.

Example pi_str_101 :
  Mpmath.pi_str_nach 101 =
  "3.141592653589793238462643383279502884197169399375105820974944592307816406286208998628034825342117068".
Proof. vm_compute. reflexivity. Qed.

(** At 109 digits the binary value of pi lies below pi by enough for
    the last digit to be 6, where a rounding of pi itself gives 7. *)
Example pi_str_109 :
  Mpmath.pi_str_nach 109 =
  "3.141592653589793238462643383279502884197169399375105820974944592307816406286208998628034825342117067982148086".
Proof. vm_compute. reflexivity. Qed.

Example pi_str_497 :
  option_map PyStr.len (PyStr.split_punkt_1 (Mpmath.pi_str_nach 497))
  = Some 495.
Proof. vm_compute. reflexivity. Qed.

Example wanderung_text_ex :
  True
  /\ wanderung_text 0 = "Wenn jede Ziffer 3mm groß wäre, müsstest du 0.0 Meter laufen (etwa 0 Schritte)."
  /\ wanderung_text 1 = "Wenn jede Ziffer 3mm groß wäre, müsstest du 0.0 Meter laufen (etwa 0 Schritte)."
  /\ wanderung_text 62 = "Wenn jede Ziffer 3mm groß wäre, müsstest du 0.2 Meter laufen (etwa 0 Schritte)."
  /\ wanderung_text 250 = "Wenn jede Ziffer 3mm groß wäre, müsstest du 0.8 Meter laufen (etwa 0 Schritte)."
  /\ wanderung_text 750 = "Wenn jede Ziffer 3mm groß wäre, müsstest du 2.2 Meter laufen (etwa 2 Schritte)."
  /\ wanderung_text 1250 = "Wenn jede Ziffer 3mm groß wäre, müsstest du 3.8 Meter laufen (etwa 2 Schritte)."
  /\ wanderung_text 333333 = "Wenn jede Ziffer 3mm groß wäre, müsstest du 1000.0 Meter laufen (etwa 667 Schritte)."
  /\ wanderung_text 333334 = "Wenn jede Ziffer 3mm groß wäre, müsstest du 1.00 km laufen (etwa 0.2 Stunden Fußweg)."
  /\ wanderung_text 1000000 = "Wenn jede Ziffer 3mm groß wäre, müsstest du 3.00 km laufen (etwa 0.6 Stunden Fußweg)."
  /\ wanderung_text 9007199254740993 = "Wenn jede Ziffer 3mm groß wäre, müsstest du 27021597764.22 km laufen (etwa 5404319552.8 Stunden Fußweg)."
  /\ wanderung_text 4611686018427387904 = "Wenn jede Ziffer 3mm groß wäre, müsstest du 13835058055282.16 km laufen (etwa 2767011611056.4 Stunden Fußweg)."
  /\ wanderung_text 1000000000000000007 = "Wenn jede Ziffer 3mm groß wäre, müsstest du 3000000000000.00 km laufen (etwa 600000000000.0 Stunden Fußweg)."
  /\ wanderung_text 2254257 = "Wenn jede Ziffer 3mm groß wäre, müsstest du 6.76 km laufen (etwa 1.4 Stunden Fußweg)."
  /\ wanderung_text 9549656 = "Wenn jede Ziffer 3mm groß wäre, müsstest du 28.65 km laufen (etwa 5.7 Stunden Fußweg)."
  /\ wanderung_text 1058756 = "Wenn jede Ziffer 3mm groß wäre, müsstest du 3.18 km laufen (etwa 0.6 Stunden Fußweg)."
  /\ wanderung_text 4279348 = "Wenn jede Ziffer 3mm groß wäre, müsstest du 12.84 km laufen (etwa 2.6 Stunden Fußweg)."
  /\ wanderung_text 1978347 = "Wenn jede Ziffer 3mm groß wäre, müsstest du 5.94 km laufen (etwa 1.2 Stunden Fußweg)."
  /\ wanderung_text 8312021 = "Wenn jede Ziffer 3mm groß wäre, müsstest du 24.94 km laufen (etwa 5.0 Stunden Fußweg)."
  /\ wanderung_text 7541208 = "Wenn jede Ziffer 3mm groß wäre, müsstest du 22.62 km laufen (etwa 4.5 Stunden Fußweg)."
  /\ wanderung_text 7922960 = "Wenn jede Ziffer 3mm groß wäre, müsstest du 23.77 km laufen (etwa 4.8 Stunden Fußweg)."
  /\ wanderung_text 6368886 = "Wenn jede Ziffer 3mm groß wäre, müsstest du 19.11 km laufen (etwa 3.8 Stunden Fußweg)."
  /\ wanderung_text 3522457 = "Wenn jede Ziffer 3mm groß wäre, müsstest du 10.57 km laufen (etwa 2.1 Stunden Fußweg)."
  /\ wanderung_text 1574702 = "Wenn jede Ziffer 3mm groß wäre, müsstest du 4.72 km laufen (etwa 0.9 Stunden Fußweg)."
  /\ wanderung_text 8184876 = "Wenn jede Ziffer 3mm groß wäre, müsstest du 24.55 km laufen (etwa 4.9 Stunden Fußweg)."
  /\ wanderung_text 475591 = "Wenn jede Ziffer 3mm groß wäre, müsstest du 1.43 km laufen (etwa 0.3 Stunden Fußweg)."
  /\ wanderung_text 6539906 = "Wenn jede Ziffer 3mm groß wäre, müsstest du 19.62 km laufen (etwa 3.9 Stunden Fußweg)."
  /\ wanderung_text 7260626 = "Wenn jede Ziffer 3mm groß wäre, müsstest du 21.78 km laufen (etwa 4.4 Stunden Fußweg)."
  /\ wanderung_text 35333 = "Wenn jede Ziffer 3mm groß wäre, müsstest du 106.0 Meter laufen (etwa 71 Schritte)."
  /\ wanderung_text 7472357 = "Wenn jede Ziffer 3mm groß wäre, müsstest du 22.42 km laufen (etwa 4.5 Stunden Fußweg)."
  /\ wanderung_text 4468285 = "Wenn jede Ziffer 3mm groß wäre, müsstest du 13.40 km laufen (etwa 2.7 Stunden Fußweg)."
  /\ wanderung_text 3837993 = "Wenn jede Ziffer 3mm groß wäre, müsstest du 11.51 km laufen (etwa 2.3 Stunden Fußweg)."
  /\ wanderung_text 9917908 = "Wenn jede Ziffer 3mm groß wäre, müsstest du 29.75 km laufen (etwa 6.0 Stunden Fußweg)."
  /\ wanderung_text 1715087 = "Wenn jede Ziffer 3mm groß wäre, müsstest du 5.15 km laufen (etwa 1.0 Stunden Fußweg)."
  /\ wanderung_text 5325585 = "Wenn jede Ziffer 3mm groß wäre, müsstest du 15.98 km laufen (etwa 3.2 Stunden Fußweg)."
  /\ wanderung_text 513214 = "Wenn jede Ziffer 3mm groß wäre, müsstest du 1.54 km laufen (etwa 0.3 Stunden Fußweg)."
  /\ wanderung_text 374502 = "Wenn jede Ziffer 3mm groß wäre, müsstest du 1.12 km laufen (etwa 0.2 Stunden Fußweg)."
  /\ wanderung_text 426910 = "Wenn jede Ziffer 3mm groß wäre, müsstest du 1.28 km laufen (etwa 0.3 Stunden Fußweg)."
  /\ wanderung_text 9083394 = "Wenn jede Ziffer 3mm groß wäre, müsstest du 27.25 km laufen (etwa 5.5 Stunden Fußweg)."
  /\ wanderung_text 154433 = "Wenn jede Ziffer 3mm groß wäre, müsstest du 463.3 Meter laufen (etwa 309 Schritte)."
  /\ wanderung_text 6395545 = "Wenn jede Ziffer 3mm groß wäre, müsstest du 19.19 km laufen (etwa 3.8 Stunden Fußweg)."
  /\ wanderung_text 3633934 = "Wenn jede Ziffer 3mm groß wäre, müsstest du 10.90 km laufen (etwa 2.2 Stunden Fußweg)."
  /\ wanderung_text 7081940 = "Wenn jede Ziffer 3mm groß wäre, müsstest du 21.25 km laufen (etwa 4.2 Stunden Fußweg)."
  /\ wanderung_text 487223 = "Wenn jede Ziffer 3mm groß wäre, müsstest du 1.46 km laufen (etwa 0.3 Stunden Fußweg)."
  /\ wanderung_text 8852152 = "Wenn jede Ziffer 3mm groß wäre, müsstest du 26.56 km laufen (etwa 5.3 Stunden Fußweg)."
  /\ wanderung_text 3719368 = "Wenn jede Ziffer 3mm groß wäre, müsstest du 11.16 km laufen (etwa 2.2 Stunden Fußweg)."
  /\ wanderung_text 7346534 = "Wenn jede Ziffer 3mm groß wäre, müsstest du 22.04 km laufen (etwa 4.4 Stunden Fußweg)."
  /\ wanderung_text 8318349 = "Wenn jede Ziffer 3mm groß wäre, müsstest du 24.96 km laufen (etwa 5.0 Stunden Fußweg)."
  /\ wanderung_text 9275444 = "Wenn jede Ziffer 3mm groß wäre, müsstest du 27.83 km laufen (etwa 5.6 Stunden Fußweg)."
  /\ wanderung_text 3910508 = "Wenn jede Ziffer 3mm groß wäre, müsstest du 11.73 km laufen (etwa 2.3 Stunden Fußweg)."
  /\ wanderung_text 5799890 = "Wenn jede Ziffer 3mm groß wäre, müsstest du 17.40 km laufen (etwa 3.5 Stunden Fußweg)."
  /\ wanderung_text 3873297 = "Wenn jede Ziffer 3mm groß wäre, müsstest du 11.62 km laufen (etwa 2.3 Stunden Fußweg)."
  /\ wanderung_text 3670536 = "Wenn jede Ziffer 3mm groß wäre, müsstest du 11.01 km laufen (etwa 2.2 Stunden Fußweg).".
Proof. vm_compute. repeat split; reflexivity. Qed.

Example lauf_141592 :
  fst (lauf "1.4.1592" None 10) =
  Some (Gefunden {|
    suchstring := "141592"; position := 0; laenge := 6;
    schreib_dauer := schreib_dauer_text 0;
    buch_position := buch_position_text 0;
    wanderung := wanderung_text 0;
    kontext := "...[141592]6535897932...";
    pi_position := "3,[141592]..." |}).
Proof. vm_compute. reflexivity. Qed.

(** ** Equality of characters and of strings *)

Lemma zeichen_eqb_eq (a b : zeichen) : Zeichen.eqb a b = true <-> a = b.
Proof. apply N.eqb_eq. Qed.

Lemma str_eqb_eq (s t : string) : Str.eqb s t = true <-> s = t.
Proof.
  revert t. induction s as [|a s IH]; intros [|b t]; cbn;
    try (split; [discriminate | congruence]); [tauto|].
  rewrite andb_true_iff, zeichen_eqb_eq, IH. split.
  - now intros [-> ->].
  - intros H. now injection H.
Qed.

(** ** What a run returns and what it records *)

Section Lauf.

Variable str_mp_pi : Z -> Z -> string.

Let finde := finde_geburtsdatum_in_pi str_mp_pi.

Lemma suche_fst (sm : string) (B : Z) (w : Welt) :
  fst (suche str_mp_pi sm B w) =
  match nachkommastellen_von str_mp_pi B with
  | None => None
  | Some nk => Some (zusammenstellen nk sm (PyStr.find nk sm) B)
  end.
Proof.
  unfold suche, nachkommastellen_von, bind, setze_dps, str_pi, lies_dps,
    lies_prec,
    notiere, find, ret, bind; cbn.
  destruct (PyStr.split_punkt_1 _); reflexivity.
Qed.

Lemma suche_snd (sm : string) (B : Z) (w : Welt) :
  snd (suche str_mp_pi sm B w) =
  mk_Welt (Mpmath.dps_to_prec (B + 100)) (Mpmath.set_dps (B + 100))
    (protokoll w
     ++ [Ruf_set_dps (B + 100); Ruf_str_pi (Mpmath.set_dps (B + 100))]
     ++ match nachkommastellen_von str_mp_pi B with
        | None => []
        | Some _ => [Ruf_find sm]
        end).
Proof.
  unfold suche, nachkommastellen_von, bind, setze_dps, str_pi, lies_dps,
    lies_prec,
    notiere, find, ret, bind; cbn.
  destruct (PyStr.split_punkt_1 _); cbn;
    rewrite <- ?app_assoc; reflexivity.
Qed.

Lemma finde_fst (D : string) (T : option string) (B : Z) (w : Welt) :
  fst (finde D T B w) = rueckgabe str_mp_pi D T B.
Proof.
  unfold finde, finde_geburtsdatum_in_pi, rueckgabe, muster,
    nachkommastellen_von.
  destruct T as [[|c z]|];
    [ | set (zt := String c z);
        change (wahr (Some zt)) with true;
        change (zeit_von (Some zt)) with zt | ];
    cbv beta iota delta [bind ret notiere strptime replace re_match suche
      setze_dps str_pi lies_dps lies_prec find fst snd mp_dps mp_prec
      protokoll wahr zeit_von negb andb];
    destruct (Datetime.strptime D) as [d|]; try reflexivity.
  - destruct (PyStr.split_punkt_1 _); reflexivity.
  - destruct (Re.match_zeit zt); [|reflexivity].
    destruct (PyStr.split_punkt_1 _); reflexivity.
  - destruct (PyStr.split_punkt_1 _); reflexivity.
Qed.

Lemma finde_snd (D : string) (T : option string) (B : Z) (w : Welt) :
  snd (finde D T B w) =
  mk_Welt (if validiert D T then Mpmath.dps_to_prec (B + 100) else mp_prec w)
          (if validiert D T then Mpmath.set_dps (B + 100) else mp_dps w)
          (protokoll w ++ rufe str_mp_pi D T B).
Proof.
  unfold finde, finde_geburtsdatum_in_pi, rufe, validiert,
    muster, nachkommastellen_von.
  destruct T as [[|c z]|];
    [ | set (zt := String c z);
        change (wahr (Some zt)) with true;
        change (zeit_von (Some zt)) with zt | ];
    cbv beta iota delta [bind ret notiere strptime replace re_match suche
      setze_dps str_pi lies_dps lies_prec find fst snd mp_dps mp_prec
      protokoll wahr zeit_von negb andb];
    destruct (Datetime.strptime D) as [d|];
    try (destruct (Re.match_zeit zt));
    try (destruct (PyStr.split_punkt_1 _));
    cbn [app]; rewrite <- ?app_assoc; reflexivity.
Qed.

End Lauf.

(** ** Strings: [take], [drop], slices and [find] *)

Section Zeichenketten.

Import PyStr.

Lemma length_take (n : nat) (s : string) :
  Str.length (take n s) = Nat.min n (Str.length s).
Proof.
  revert s; induction n as [|n IH]; intros [|c s]; cbn; auto.
Qed.

Lemma length_drop (n : nat) (s : string) :
  Str.length (drop n s) = (Str.length s - n)%nat.
Proof.
  revert s; induction n as [|n IH]; intros [|c s]; cbn; auto.
Qed.

Lemma take_all (n : nat) (s : string) :
  (Str.length s <= n)%nat -> take n s = s.
Proof.
  revert s; induction n as [|n IH]; intros [|c s] H; cbn in *;
    try reflexivity; try lia.
  f_equal. apply IH. lia.
Qed.

Lemma take_take (n m : nat) (s : string) :
  take n (take m s) = take (Nat.min n m) s.
Proof.
  revert m s; induction n as [|n IH]; intros [|m] [|c s]; cbn;
    try reflexivity.
  f_equal. apply IH.
Qed.

Lemma drop_drop (n m : nat) (s : string) :
  drop n (drop m s) = drop (m + n) s.
Proof.
  revert s; induction m as [|m IH]; intros s; cbn; [reflexivity|].
  destruct s as [|c s]; [destruct n; reflexivity|]. apply IH.
Qed.

Lemma drop_take (n m : nat) (s : string) :
  drop n (take m s) = take (m - n) (drop n s).
Proof.
  revert m s; induction n as [|n IH]; intros m s; cbn.
  - now rewrite Nat.sub_0_r.
  - destruct m as [|m]; destruct s as [|c s]; cbn; try reflexivity.
    + now destruct (m - n)%nat.
    + apply IH.
Qed.

Lemma take_drop_append (n : nat) (s : string) : take n s ++ drop n s = s.
Proof.
  revert s; induction n as [|n IH]; intros [|c s]; cbn; try reflexivity.
  f_equal. apply IH.
Qed.

Lemma length_append (s t : string) :
  Str.length (s ++ t) = (Str.length s + Str.length t)%nat.
Proof. induction s as [|c s IH]; cbn; auto. Qed.

Lemma append_assoc (s t u : string) : (s ++ t) ++ u = s ++ (t ++ u).
Proof. induction s as [|c s IH]; cbn; [reflexivity | now rewrite IH]. Qed.

Lemma append_leer_r (s : string) : s ++ EmptyString = s.
Proof. induction s as [|c s IH]; cbn; [reflexivity | now rewrite IH]. Qed.

Lemma startswith_take (p s : string) :
  startswith p s = true ->
  take (Str.length p) s = p /\ (Str.length p <= Str.length s)%nat.
Proof.
  revert s; induction p as [|a p IH]; intros s H; cbn in *.
  - split; [now destruct s | lia].
  - destruct s as [|b s]; [discriminate|].
    apply andb_true_iff in H as [Hab Hp].
    apply zeichen_eqb_eq in Hab. subst b.
    destruct (IH _ Hp) as [E L]. cbn. split; [now rewrite E | lia].
Qed.

(** [find] returns -1 or the offset of an occurrence that lies within
    the string. *)
Lemma find_from_spec (sub s : string) (i : Z) :
  find_from i sub s = -1
  \/ (i <= find_from i sub s
      /\ find_from i sub s - i + len sub <= len s
      /\ take (Str.length sub)
              (drop (Z.to_nat (find_from i sub s - i)) s) = sub).
Proof.
  revert i; induction s as [|c s IH]; intros i; cbn [find_from].
  - destruct (startswith sub EmptyString) eqn:E; [|now left].
    right. apply startswith_take in E as [E L].
    rewrite Z.sub_diag. cbn [Z.to_nat drop]. unfold len. split; [lia|].
    split; [lia | exact E].
  - destruct (startswith sub (String c s)) eqn:E.
    + right. apply startswith_take in E as [E L].
      rewrite Z.sub_diag. cbn [Z.to_nat drop]. unfold len. split; [lia|].
      split; [lia | exact E].
    + destruct (IH (i + 1)) as [H | (H1 & H2 & H3)]; [now left|].
      right. unfold len in *. cbn [Str.length].
      split; [lia|]. split; [lia|].
      replace (Z.to_nat (find_from (i + 1) sub s - i))
        with (S (Z.to_nat (find_from (i + 1) sub s - (i + 1)))) by lia.
      exact H3.
Qed.

Lemma find_spec (s sub : string) :
  find s sub = -1
  \/ (0 <= find s sub
      /\ find s sub + len sub <= len s
      /\ take (Str.length sub) (drop (Z.to_nat (find s sub)) s) = sub).
Proof.
  unfold find. destruct (find_from_spec sub s 0) as [H | (H1 & H2 & H3)];
    [now left | right].
  rewrite Z.sub_0_r in *. auto.
Qed.

(** A slice with both bounds inside the string. *)
Lemma slice_innen (s : string) (a b : Z) :
  0 <= a <= b -> b <= len s ->
  slice s (Some a) (Some b) = take (Z.to_nat (b - a)) (drop (Z.to_nat a) s).
Proof.
  intros Hab Hb. unfold slice, adjust.
  destruct (a <? 0) eqn:E1; [lia|]. rewrite E1.
  destruct (b <? 0) eqn:E2; [lia|]. rewrite E2.
  destruct (len s <? a) eqn:E3; [lia|].
  destruct (len s <? b) eqn:E4; [lia|]. reflexivity.
Qed.

Lemma slice_bis (s : string) (b : Z) :
  0 <= b <= len s -> slice s None (Some b) = take (Z.to_nat b) s.
Proof.
  intros Hb. unfold slice, adjust.
  destruct (b <? 0) eqn:E2; [lia|]. rewrite E2.
  destruct (len s <? b) eqn:E4; [lia|].
  now rewrite Z.sub_0_r.
Qed.

Lemma slice_ab (s : string) (a : Z) :
  0 <= a <= len s -> slice s (Some a) None = drop (Z.to_nat a) s.
Proof.
  intros Ha. unfold slice, adjust.
  destruct (a <? 0) eqn:E2; [lia|]. rewrite E2.
  destruct (len s <? a) eqn:E4; [lia|].
  apply take_all. rewrite length_drop. unfold len. lia.
Qed.

End Zeichenketten.

(** ** The context window *)

Section Kontext.

Import PyStr.

Variables (nk sm : string) (p : Z).
Hypothesis p_nonneg : 0 <= p.
Hypothesis p_innen : p + len sm <= len nk.
Hypothesis p_treffer : take (Str.length sm) (drop (Z.to_nat p) nk) = sm.

Let start := Z.max 0 (p - 10).
Let ende := Z.min (len nk) (p + len sm + 10).
Let fenster := slice nk (Some start) (Some ende).

Lemma fenster_eq :
  fenster = take (Z.to_nat (ende - start)) (drop (Z.to_nat start) nk).
Proof.
  unfold fenster. apply slice_innen; unfold start, ende, len in *; lia.
Qed.

Lemma len_fenster : len fenster = ende - start.
Proof.
  rewrite fenster_eq. unfold len. rewrite length_take, length_drop.
  unfold start, ende, len in *. lia.
Qed.

Lemma fenster_links :
  slice fenster None (Some (p - start)) = slice nk (Some start) (Some p).
Proof.
  rewrite slice_bis by (rewrite len_fenster; unfold start, ende, len in *; lia).
  rewrite slice_innen by (unfold start, len in *; lia).
  rewrite fenster_eq, take_take. f_equal.
  unfold start, ende, len in *. lia.
Qed.

Lemma fenster_mitte :
  slice fenster (Some (p - start)) (Some (p - start + len sm)) = sm.
Proof.
  rewrite slice_innen
    by (rewrite ?len_fenster; unfold start, ende, len in *; lia).
  rewrite fenster_eq, drop_take, drop_drop, take_take.
  etransitivity; [|exact p_treffer]. f_equal.
  - unfold start, ende, len in *. lia.
  - f_equal. unfold start, len in *. lia.
Qed.

Lemma fenster_rechts :
  slice fenster (Some (p - start + len sm)) None
  = slice nk (Some (p + len sm)) (Some ende).
Proof.
  rewrite slice_ab by (rewrite len_fenster; unfold start, ende, len in *; lia).
  rewrite slice_innen by (unfold ende, len in *; lia).
  rewrite fenster_eq, drop_take, drop_drop. f_equal.
  - unfold start, ende, len in *. lia.
  - f_equal. unfold start, len in *. lia.
Qed.

Lemma kontext_text_eq :
  kontext_text nk sm p =
  "..." ++ (slice nk (Some start) (Some p)
            ++ ("[" ++ sm ++ "]")
            ++ slice nk (Some (p + len sm)) (Some ende)) ++ "...".
Proof.
  unfold kontext_text. fold start. fold ende. fold fenster.
  now rewrite fenster_links, fenster_mitte, fenster_rechts.
Qed.

Lemma treffer_slice : slice nk (Some p) (Some (p + len sm)) = sm.
Proof.
  rewrite slice_innen by (unfold len in *; lia).
  etransitivity; [|exact p_treffer]. f_equal. unfold len. lia.
Qed.

End Kontext.

(** ** Properties of the result *)

Section Eigenschaften.

Import PyStr.

Variable str_mp_pi : Z -> Z -> string.

Let finde := finde_geburtsdatum_in_pi str_mp_pi.

(** A result with ["gefunden": True] comes from a validated input, a
    fractional digit string and an occurrence of the pattern in it. *)
Lemma gefunden_inv (D : string) (T : option string) (B : Z) (w : Welt)
                   (t : Treffer) :
  fst (finde D T B w) = Some (Gefunden t) ->
  exists nk,
    nachkommastellen_von str_mp_pi B = Some nk
    /\ validiert D T = true
    /\ find nk (muster D T) <> -1
    /\ t = {| suchstring := muster D T;
              position := find nk (muster D T);
              laenge := len (muster D T);
              schreib_dauer := schreib_dauer_text (find nk (muster D T));
              buch_position := buch_position_text (find nk (muster D T));
              wanderung := wanderung_text (find nk (muster D T));
              kontext := kontext_text nk (muster D T) (find nk (muster D T));
              pi_position :=
                pi_position_text nk (muster D T) (find nk (muster D T)) |}.
Proof.
  unfold finde. rewrite finde_fst. unfold rueckgabe, validiert.
  destruct (Datetime.strptime D); [|discriminate].
  destruct (wahr T && negb (Re.match_zeit (zeit_von T))); [discriminate|].
  destruct (nachkommastellen_von str_mp_pi B) as [nk|]; [|discriminate].
  unfold zusammenstellen.
  destruct (find nk (muster D T) =? -1) eqn:E; [discriminate|].
  intros H. injection H as <-. exists nk.
  apply Z.eqb_neq in E. auto.
Qed.

(** The offset of a match is not negative, the match lies within the
    digit string, and the digits at the offset are the pattern. *)
Lemma gefunden_treffer (D : string) (T : option string) (B : Z) (w : Welt)
                       (t : Treffer) :
  fst (finde D T B w) = Some (Gefunden t) ->
  exists nk,
    nachkommastellen_von str_mp_pi B = Some nk
    /\ suchstring t = muster D T
    /\ position t = find nk (suchstring t)
    /\ 0 <= position t
    /\ position t + len (suchstring t) <= len nk
    /\ take (Str.length (suchstring t))
            (drop (Z.to_nat (position t)) nk) = suchstring t
    /\ kontext t = kontext_text nk (suchstring t) (position t)
    /\ buch_position t = buch_position_text (position t).
Proof.
  intros H. apply gefunden_inv in H as (nk & Hnk & _ & Hne & ->).
  exists nk. cbn [suchstring position kontext buch_position].
  destruct (find_spec nk (muster D T)) as [E | (H1 & H2 & H3)];
    [contradiction|].
  repeat split; auto.
Qed.

End Eigenschaften.

(** C6: for a match at offset [p], the text under ["kontext"] is three
    points, the digits from [max(0, p - 10)] up to [p], the matched
    digits (which are the pattern) in square brackets, the digits
    from the end of the match up to [min(len, p + len(pattern) + 10)],
    and three points again; all bounds lie within the fractional
    digit string, and when [p < 10] the left part is the whole prefix
    of the digit string before the match, [p] characters long. *)
Theorem kontext_fenster
    (str_mp_pi : Z -> Z -> string)
    (D : string) (T : option string) (B : Z) (w : Welt) (t : Treffer) :
  fst (finde_geburtsdatum_in_pi str_mp_pi D T B w)
    = Some (Gefunden t) ->
  exists nk,
    nachkommastellen_von str_mp_pi B = Some nk
    /\ let p := position t in
       let sm := suchstring t in
       let links := PyStr.slice nk (Some (Z.max 0 (p - 10))) (Some p) in
       let rechts :=
         PyStr.slice nk (Some (p + PyStr.len sm))
           (Some (Z.min (PyStr.len nk) (p + PyStr.len sm + 10))) in
       0 <= Z.max 0 (p - 10) <= p
       /\ p + PyStr.len sm <= Z.min (PyStr.len nk) (p + PyStr.len sm + 10)
       /\ Z.min (PyStr.len nk) (p + PyStr.len sm + 10) <= PyStr.len nk
       /\ PyStr.slice nk (Some p) (Some (p + PyStr.len sm)) = sm
       /\ kontext t = "..." ++ (links ++ ("[" ++ sm ++ "]") ++ rechts) ++ "..."
       /\ PyStr.len links = Z.min p 10
       /\ (p < 10 -> links = PyStr.take (Z.to_nat p) nk).
Proof.
  intros H.
  apply gefunden_treffer in H
    as (nk & Hnk & _ & _ & H0 & H1 & H2 & Hk & _).
  exists nk. split; [exact Hnk|]. cbv zeta.
  assert (Hl : 0 <= PyStr.len (suchstring t)) by (unfold PyStr.len; lia).
  split; [lia|]. split; [lia|]. split; [lia|].
  split; [now apply treffer_slice|].
  split; [rewrite Hk; now apply kontext_text_eq|].
  rewrite slice_innen by lia.
  split.
  - unfold PyStr.len at 1. rewrite length_take, length_drop.
    unfold PyStr.len in *. lia.
  - intros Hp. replace (Z.max 0 (position t - 10)) with 0 by lia.
    cbn [Z.to_nat PyStr.drop]. now rewrite Z.sub_0_r.
Qed.

(** C7: for a match at offset [p], the text under ["buch_position"]
    names page [p // 4000 + 1] and line [(p % 4000) // 80 + 1]; both
    are at least 1 and the line is at most 50; offset 4000 is page 2
    line 1, offset 79 is page 1 line 1, offset 80 is page 1 line 2. *)
Theorem buch_position_seite_zeile
    (str_mp_pi : Z -> Z -> string)
    (D : string) (T : option string) (B : Z) (w : Welt) (t : Treffer) :
  fst (finde_geburtsdatum_in_pi str_mp_pi D T B w)
    = Some (Gefunden t) ->
  let p := position t in
  0 <= p
  /\ buch_position t =
       buch_anfang ++ PyStr.of_int (p / 4000 + 1) ++ ", Zeile "
       ++ PyStr.of_int ((p mod 4000) / 80 + 1) ++ " finden."
  /\ seite p = p / 4000 + 1
  /\ zeile p = (p mod 4000) / 80 + 1
  /\ 1 <= seite p
  /\ 1 <= zeile p <= 50
  /\ (seite 4000 = 2 /\ zeile 4000 = 1)
  /\ (seite 79 = 1 /\ zeile 79 = 1)
  /\ (seite 80 = 1 /\ zeile 80 = 2).
Proof.
  intros H.
  apply gefunden_treffer in H as (nk & _ & _ & _ & H0 & _ & _ & _ & Hb).
  cbv zeta. split; [exact H0|].
  split; [rewrite Hb; reflexivity|].
  unfold seite, zeile. change ziffern_pro_seite with 4000.
  split; [reflexivity|]. split; [reflexivity|].
  assert (0 <= position t / 4000) by (apply Z.div_pos; lia).
  assert (0 <= position t mod 4000 < 4000) by (apply Z.mod_pos_bound; lia).
  assert (0 <= (position t mod 4000) / 80) by (apply Z.div_pos; lia).
  assert ((position t mod 4000) / 80 < 50)
    by (apply Z.div_lt_upper_bound; lia).
  split; [lia|]. split; [lia|].
  repeat split; reflexivity.
Qed.

(** C9: the value returned depends on the date, the time and the
    budget only.  Two calls with the same three arguments return the
    same dictionary, whatever [mp.dps] held and whatever was called
    before either of them, also when the second call starts in the
    world the first one left; so the flag ["gefunden"], the offset,
    the context and the three analogies are the same. *)
Theorem determinismus
    (str_mp_pi : Z -> Z -> string)
    (D : string) (T : option string) (B : Z) (w1 w2 : Welt) :
  let finde := finde_geburtsdatum_in_pi str_mp_pi D T B in
  fst (finde w1) = fst (finde w2)
  /\ fst (finde (snd (finde w1))) = fst (finde w1)
  /\ option_map gefunden (fst (finde w1))
     = option_map gefunden (fst (finde w2))
  /\ option_map position_von (fst (finde w1))
     = option_map position_von (fst (finde w2))
  /\ forall t1 t2,
       treffer_von (finde w1) = Some t1 ->
       treffer_von (finde w2) = Some t2 ->
       position t1 = position t2
       /\ kontext t1 = kontext t2
       /\ schreib_dauer t1 = schreib_dauer t2
       /\ buch_position t1 = buch_position t2
       /\ wanderung t1 = wanderung t2.
Proof.
  intros finde.
  assert (E : forall w w', fst (finde w) = fst (finde w')).
  { intros w w'. unfold finde. now rewrite !finde_fst. }
  split; [apply E|]. split; [apply E|].
  split; [now rewrite (E w1 w2)|]. split; [now rewrite (E w1 w2)|].
  intros t1 t2. unfold treffer_von. rewrite (E w1 w2).
  destruct (fst (finde w2)) as [[f | s n t | t]|]; try discriminate.
  intros [= <-] [= <-]. repeat split; reflexivity.
Qed.

Lemma neue_rufe_finde
    (str_mp_pi : Z -> Z -> string)
    (D : string) (T : option string) (B : Z) (w : Welt) :
  neue_rufe w (snd (finde_geburtsdatum_in_pi str_mp_pi D T B w))
  = rufe str_mp_pi D T B.
Proof.
  rewrite finde_snd. unfold neue_rufe. cbn [protokoll].
  rewrite skipn_app, skipn_all, Nat.sub_diag. reflexivity.
Qed.

Lemma zusammenstellen_kein_fehler (nk sm : string) (p B : Z) (msg : string) :
  zusammenstellen nk sm p B <> Fehler msg.
Proof.
  unfold zusammenstellen, nicht_gefunden.
  destruct (p =? -1); discriminate.
Qed.

Lemma zusammenstellen_suchstring (nk sm : string) (p B : Z) :
  suchstring_von (zusammenstellen nk sm p B) = Some sm.
Proof.
  unfold zusammenstellen, nicht_gefunden.
  destruct (p =? -1); reflexivity.
Qed.

(** A validated input never yields an error dictionary, and what it
    yields carries the pattern. *)
Lemma validiert_rueckgabe
    (str_mp_pi : Z -> Z -> string)
    (D : string) (T : option string) (B : Z) (e : Ergebnis) :
  validiert D T = true ->
  rueckgabe str_mp_pi D T B = Some e ->
  (forall msg, e <> Fehler msg) /\ suchstring_von e = Some (muster D T).
Proof.
  unfold validiert, rueckgabe.
  destruct (Datetime.strptime D); [|discriminate].
  destruct (wahr T && negb (Re.match_zeit (zeit_von T))); [discriminate|].
  intros _. destruct (nachkommastellen_von str_mp_pi B); [|discriminate].
  intros H. injection H as <-. split.
  - intros msg. apply zusammenstellen_kein_fehler.
  - apply zusammenstellen_suchstring.
Qed.

(** C3, as the code has it: when the date does not parse, or a
    non-empty time does not match the expression, the error dictionary
    of that validation is returned, [mp.dps] keeps its value and
    neither the assignment to [mp.dps] nor [str(mp.pi)] is among the
    calls made.  After a date that does not parse the only call made
    is [strptime], so no part of the pattern is built; after a time
    that does not match, the calls are [strptime], the [replace] on
    the date (line 25) and [re.match]: the date part of the pattern is
    built, the time part is not. *)
Theorem validierung_vor_pi
    (str_mp_pi : Z -> Z -> string)
    (D : string) (T : option string) (B : Z) (w : Welt) :
  Datetime.strptime D = None
  \/ (wahr T = true /\ Re.match_zeit (zeit_von T) = false) ->
  let r := finde_geburtsdatum_in_pi str_mp_pi D T B w in
  fst r = Some (Fehler (match Datetime.strptime D with
                        | None => fehler_datum
                        | Some _ => fehler_zeit
                        end))
  /\ mp_dps (snd r) = mp_dps w
  /\ existsb ist_pi_ruf (neue_rufe w (snd r)) = false
  /\ neue_rufe w (snd r) =
       match Datetime.strptime D with
       | None => [Ruf_strptime D]
       | Some _ => [Ruf_strptime D; Ruf_replace D;
                    Ruf_re_match (zeit_von T)]
       end
  /\ (Datetime.strptime D = None ->
      existsb ist_muster_ruf (neue_rufe w (snd r)) = false).
Proof.
  intros H r. subst r.
  rewrite finde_fst, neue_rufe_finde, finde_snd.
  unfold rueckgabe, rufe, validiert. cbn [mp_dps].
  destruct (Datetime.strptime D) as [d|].
  - destruct H as [H | [H1 H2]]; [discriminate|].
    rewrite H1, H2. cbn. repeat split; try reflexivity. discriminate.
  - cbn. repeat split; reflexivity.
Qed.

(** ** The pattern and the parsed date *)

Section Muster.

Import PyStr Datetime.

Lemma is_digit_ziffern (c : zeichen) : ist_0_9 c = true -> In c ziffern.
Proof.
  unfold ist_0_9. intros H. apply andb_true_iff in H as [H1 H2].
  apply N.leb_le in H1, H2.
  assert (E : (c = 48 \/ c = 49 \/ c = 50 \/ c = 51 \/ c = 52 \/ c = 53
               \/ c = 54 \/ c = 55 \/ c = 56 \/ c = 57)%N) by lia.
  cbn. repeat (destruct E as [-> | E]; [tauto|]). subst. tauto.
Qed.

(** A digit 0 to 9 is a decimal digit, with the value its place in
    the range gives. *)
Lemma ist_0_9_digit (c : zeichen) :
  ist_0_9 c = true -> is_digit c = true /\ digit_val c = Z.of_N c - 48.
Proof.
  intros H. apply is_digit_ziffern in H. cbn in H.
  repeat (destruct H as [<- | H]; [split; reflexivity|]). contradiction.
Qed.

(** A character that is not a decimal digit differs from every
    decimal digit. *)
Lemma digit_ungleich (c k : zeichen) :
  is_digit k = false -> is_digit c = true -> Zeichen.eqb c k = false.
Proof.
  intros Hk Hc. destruct (Zeichen.eqb c k) eqn:E; [|reflexivity].
  apply zeichen_eqb_eq in E. subst. congruence.
Qed.

Lemma is_digit_kein_punkt (c : zeichen) :
  is_digit c = true -> Zeichen.eqb c "." = false.
Proof. now apply digit_ungleich. Qed.

Lemma pad2_ziffern (a b : zeichen) :
  ist_0_9 a = true -> ist_0_9 b = true ->
  pad 2 (10 * digit_val a + digit_val b) = String a (String b EmptyString).
Proof.
  intros Ha Hb. apply is_digit_ziffern in Ha, Hb.
  assert (P : pad2_probe = true) by (vm_compute; reflexivity).
  unfold pad2_probe in P. rewrite forallb_forall in P.
  specialize (P a Ha). rewrite forallb_forall in P.
  now apply str_eqb_eq, P.
Qed.

Lemma pad4_ziffern (a b c d : zeichen) :
  ist_0_9 a = true -> ist_0_9 b = true ->
  ist_0_9 c = true -> ist_0_9 d = true ->
  pad 4 (1000 * digit_val a + 100 * digit_val b
         + 10 * digit_val c + digit_val d)
  = String a (String b (String c (String d EmptyString))).
Proof.
  intros Ha Hb Hc Hd. apply is_digit_ziffern in Ha, Hb, Hc, Hd.
  assert (P : pad4_probe = true) by (vm_compute; reflexivity).
  unfold pad4_probe in P. rewrite forallb_forall in P.
  specialize (P a Ha). rewrite forallb_forall in P.
  specialize (P b Hb). rewrite forallb_forall in P.
  specialize (P c Hc). rewrite forallb_forall in P.
  now apply str_eqb_eq, P.
Qed.

Lemma wenn_In {A} (b : bool) (x y : A) : In y (wenn b x) -> b = true /\ y = x.
Proof. destruct b; cbn; [intros [<-|[]]; auto | intros []]. Qed.

Lemma re_punkt_In (s r : string) : In r (re_punkt s) -> s = String "." r.
Proof.
  destruct s as [|a s]; cbn; [tauto|].
  intros H. apply wenn_In in H as [H ->].
  apply zeichen_eqb_eq in H. now subst.
Qed.

(** For a first character that is a digit, the day group takes both
    characters as a two-digit number or the first one alone. *)
Lemma re_d_In (a b : zeichen) (s : string) (x : Z * string) :
  is_digit a = true ->
  In x (re_d (String a (String b s))) ->
  x = (10 * digit_val a + digit_val b, s) \/ x = (digit_val a, String b s).
Proof.
  intros Ha H. cbn [re_d] in H.
  repeat (apply in_app_or in H as [H | H]);
    apply wenn_In in H as [Hc ->]; auto.
  - apply andb_true_iff in Hc as [Hc _]. apply zeichen_eqb_eq in Hc.
    subst a. now left.
  - apply andb_true_iff in Hc as [Hc _]. apply zeichen_eqb_eq in Hc.
    subst a. discriminate.
Qed.

Lemma re_m_In (a b : zeichen) (s : string) (x : Z * string) :
  In x (re_m (String a (String b s))) ->
  x = (10 * digit_val a + digit_val b, s) \/ x = (digit_val a, String b s).
Proof.
  intros H. cbn [re_m] in H.
  repeat (apply in_app_or in H as [H | H]);
    apply wenn_In in H as [Hc ->]; auto.
  apply andb_true_iff in Hc as [Hc _]. apply zeichen_eqb_eq in Hc.
  subst a. now left.
Qed.

End Muster.

Lemma make_Some (y m d : Z) (dt : Datetime.datetime) :
  Datetime.make y m d = Some dt -> dt = Datetime.mk_datetime y m d.
Proof.
  unfold Datetime.make. destruct (_ && _); [|discriminate].
  now intros [= <-].
Qed.

(** A date written DD.MM.YYYY parses to the numbers its digits spell. *)
Lemma strptime_dd_mm_yyyy (d1 d2 m1 m2 y1 y2 y3 y4 : zeichen)
                          (dt : Datetime.datetime) :
  PyStr.is_digit d1 = true -> PyStr.is_digit d2 = true ->
  PyStr.is_digit m2 = true ->
  Datetime.strptime
    (String d1 (String d2 (String "." (String m1 (String m2 (String "."
      (String y1 (String y2 (String y3 (String y4 EmptyString))))))))))
    = Some dt ->
  dt = Datetime.mk_datetime
         (1000 * PyStr.digit_val y1 + 100 * PyStr.digit_val y2
          + 10 * PyStr.digit_val y3 + PyStr.digit_val y4)
         (10 * PyStr.digit_val m1 + PyStr.digit_val m2)
         (10 * PyStr.digit_val d1 + PyStr.digit_val d2).
Proof.
  intros Hd1 Hd2 Hm2. unfold Datetime.strptime.
  destruct (Datetime.re_format _) as [|[[[d m] y] rest] l] eqn:E;
    [discriminate|].
  assert (H : In (d, m, y, rest) (Datetime.re_format
    (String d1 (String d2 (String "." (String m1 (String m2 (String "."
      (String y1 (String y2 (String y3 (String y4 EmptyString)))))))))))).
  { rewrite E. now left. }
  clear E. unfold Datetime.re_format in H.
  apply in_flat_map in H as ([d' s1] & Hd & H).
  apply in_flat_map in H as (s2 & Hp1 & H).
  apply in_flat_map in H as ([m' s3] & Hm & H).
  apply in_flat_map in H as (s4 & Hp2 & H).
  apply in_map_iff in H as ([y' s5] & Hy & HY).
  injection Hy as -> -> -> ->.
  apply (re_d_In _ _ _ _ Hd1) in Hd.
  destruct Hd as [Hd | Hd]; injection Hd as -> ->.
  2:{ apply re_punkt_In in Hp1. injection Hp1 as -> _.
      discriminate Hd2. }
  apply re_punkt_In in Hp1. injection Hp1 as <-.
  apply re_m_In in Hm as [Hm | Hm]; injection Hm as -> ->.
  2:{ apply re_punkt_In in Hp2. injection Hp2 as -> _.
      discriminate Hm2. }
  apply re_punkt_In in Hp2. injection Hp2 as <-.
  cbn [Datetime.re_Y] in HY. apply wenn_In in HY as [_ HY].
  injection HY as -> ->.
  intros H. now apply make_Some in H.
Qed.

Lemma form_hh_mm_match (z : string) :
  form_hh_mm z = true -> Re.match_zeit z = true.
Proof.
  destruct z as [|a [|b [|p [|c [|d [|e r]]]]]]; try discriminate.
  cbn [form_hh_mm Re.match_zeit Re.dollar]. intros H.
  apply andb_true_iff in H as [H Hd]. apply andb_true_iff in H as [H Hc].
  apply andb_true_iff in H as [H Hp]. apply andb_true_iff in H as [Ha Hb].
  rewrite Hp.
  rewrite (proj1 (ist_0_9_digit _ Ha)), (proj1 (ist_0_9_digit _ Hb)).
  now rewrite (proj1 (ist_0_9_digit _ Hc)), (proj1 (ist_0_9_digit _ Hd)).
Qed.

(** The digits of a time ##.## and the padded components. *)
Lemma zeit_mit_nullen (z : string) :
  form_hh_mm z = true ->
  exists h m,
    zeit_komponenten z = Some (h, m)
    /\ PyStr.replace_punkt z = pad 2 h ++ pad 2 m.
Proof.
  intros H.
  destruct z as [|a [|b [|p [|c [|d [|e r]]]]]]; try discriminate.
  unfold zeit_komponenten. rewrite H. cbn [form_hh_mm] in H.
  apply andb_true_iff in H as [H Hd]. apply andb_true_iff in H as [H Hc].
  apply andb_true_iff in H as [H Hp]. apply andb_true_iff in H as [Ha Hb].
  apply zeichen_eqb_eq in Hp. subst p.
  eexists _, _. split; [reflexivity|].
  rewrite !pad2_ziffern by assumption.
  cbn. now rewrite !is_digit_kein_punkt by now apply ist_0_9_digit.
Qed.

(** The digits of a date DD.MM.YYYY and the padded components. *)
Lemma datum_mit_nullen (D : string) (dt : Datetime.datetime) :
  form_dd_mm_yyyy D = true ->
  Datetime.strptime D = Some dt ->
  PyStr.replace_punkt D
  = pad 2 (Datetime.day dt) ++ pad 2 (Datetime.month dt)
    ++ pad 4 (Datetime.year dt).
Proof.
  intros H HD.
  destruct D as [|d1 [|d2 [|p1 [|m1 [|m2 [|p2 [|y1 [|y2 [|y3 [|y4 [|? ?]]]]]]]]]]];
    try discriminate.
  cbn [form_dd_mm_yyyy] in H.
  apply andb_true_iff in H as [H Hy4]. apply andb_true_iff in H as [H Hy3].
  apply andb_true_iff in H as [H Hy2]. apply andb_true_iff in H as [H Hy1].
  apply andb_true_iff in H as [H Hp2]. apply andb_true_iff in H as [H Hm2].
  apply andb_true_iff in H as [H Hm1]. apply andb_true_iff in H as [H Hp1].
  apply andb_true_iff in H as [Hd1 Hd2].
  apply zeichen_eqb_eq in Hp1, Hp2. subst p1 p2.
  apply strptime_dd_mm_yyyy in HD; try (now apply ist_0_9_digit). subst dt.
  cbn [Datetime.day Datetime.month Datetime.year].
  rewrite !pad2_ziffern, pad4_ziffern by assumption.
  cbn. now rewrite !is_digit_kein_punkt by now apply ist_0_9_digit.
Qed.

(** C2, as the code has it: for a date that parses and is written
    DD.MM.YYYY, and a time that, when given and not empty, is written
    HH.MM, the pattern is the day, the month and the year padded with
    zeros to 2, 2 and 4 digits, followed by the two components of the
    time padded to 2 digits each, with no separators; every returned
    dictionary carries this pattern.  The date 15.03.1990 without a
    time gives 15031990, the date 01.01.2000 with the time 12.30 gives
    010120001230. *)
Theorem muster_mit_nullen
    (str_mp_pi : Z -> Z -> string)
    (D : string) (T : option string) (B : Z) (w : Welt)
    (dt : Datetime.datetime) :
  Datetime.strptime D = Some dt ->
  form_dd_mm_yyyy D = true ->
  (wahr T = true -> form_hh_mm (zeit_von T) = true) ->
  let zk := if wahr T then zeit_komponenten (zeit_von T) else None in
  muster D T = muster_laut_spec dt zk
  /\ (forall e,
        fst (finde_geburtsdatum_in_pi str_mp_pi D T B w)
          = Some e ->
        suchstring_von e = Some (muster_laut_spec dt zk))
  /\ muster "15.03.1990" None = "15031990"
  /\ muster "01.01.2000" (Some "12.30") = "010120001230".
Proof.
  intros HD HF HT zk.
  assert (HM : muster D T = muster_laut_spec dt zk).
  { unfold muster, muster_laut_spec, zk.
    rewrite (datum_mit_nullen D dt HF HD).
    destruct (wahr T).
    - destruct (zeit_mit_nullen _ (HT eq_refl)) as (h & m & -> & ->).
      now rewrite ?append_assoc.
    - now rewrite ?append_assoc, ?append_leer_r. }
  split; [exact HM|]. split; [|split; reflexivity].
  intros e He. rewrite finde_fst in He. rewrite <- HM.
  assert (Hv : validiert D T = true).
  { unfold validiert. rewrite HD.
    destruct (wahr T); [|reflexivity].
    now rewrite (form_hh_mm_match _ (HT eq_refl)). }
  now destruct (validiert_rueckgabe _ _ _ _ _ Hv He).
Qed.

(** ** The time check and the shape ##.## *)

Lemma ohne_LF_Some (z z' : string) :
  ohne_LF z = Some z' -> z = z' ++ String Re.LF EmptyString.
Proof.
  revert z'; induction z as [|c z IH]; intros z'; [discriminate|].
  cbn [ohne_LF]. destruct z as [|d z].
  - destruct (Zeichen.eqb c Re.LF) eqn:E; [|discriminate].
    apply zeichen_eqb_eq in E. subst c. now intros [= <-].
  - destruct (ohne_LF (String d z)) as [y|]; [|discriminate].
    intros [= <-]. cbn [Str.append]. now rewrite <- (IH y).
Qed.

(** The expression accepts the shape in any decimal digits, and the
    shape followed by one line feed, and nothing else. *)
Lemma match_zeit_zerlegt (z : string) :
  Re.match_zeit z
  = form_zz_zz z
    || match ohne_LF z with
       | Some z' => form_zz_zz z'
       | None => false
       end.
Proof.
  destruct z as [|a [|b [|p [|c [|d [|e [|f r]]]]]]];
    cbn [Re.match_zeit form_zz_zz ohne_LF option_map Re.dollar];
    try (repeat match goal with
                | |- context [if ?x then _ else _] => destruct x
                end; reflexivity).
  - destruct (Zeichen.eqb e Re.LF); cbn [option_map form_zz_zz orb];
      [now rewrite andb_true_r | now rewrite andb_false_r].
  - rewrite andb_false_r.
    match goal with
    | |- context [option_map (String e) ?x] => destruct x
    end; reflexivity.
Qed.

Lemma form_hh_mm_zz (z : string) :
  form_hh_mm z = true -> form_zz_zz z = true.
Proof.
  destruct z as [|a [|b [|p [|c [|d [|e r]]]]]]; try discriminate.
  cbn [form_hh_mm form_zz_zz]. intros H.
  apply andb_true_iff in H as [H Hd]. apply andb_true_iff in H as [H Hc].
  apply andb_true_iff in H as [H Hp]. apply andb_true_iff in H as [Ha Hb].
  rewrite Hp.
  rewrite (proj1 (ist_0_9_digit _ Ha)), (proj1 (ist_0_9_digit _ Hb)).
  now rewrite (proj1 (ist_0_9_digit _ Hc)), (proj1 (ist_0_9_digit _ Hd)).
Qed.

(** A time of the shape followed by a line feed has six characters:
    it is not of the shape, in whatever digits. *)
Lemma form_mit_LF (z z' : string) :
  ohne_LF z = Some z' -> form_zz_zz z' = true ->
  form_zz_zz z = false /\ form_hh_mm z = false.
Proof.
  intros H F. apply ohne_LF_Some in H. subst z.
  destruct z' as [|a [|b [|p [|c [|d [|e r]]]]]]; try discriminate.
  split; reflexivity.
Qed.

(** The time-format error is returned exactly when a time is given,
    is not empty and is rejected by the expression. *)
Lemma fehler_zeit_gdw
    (str_mp_pi : Z -> Z -> string)
    (D z : string) (B : Z) (w : Welt) :
  Datetime.strptime D <> None ->
  fst (finde_geburtsdatum_in_pi str_mp_pi D (Some z) B w)
    = Some (Fehler fehler_zeit)
  <-> z <> EmptyString /\ Re.match_zeit z = false.
Proof.
  intros HD. rewrite finde_fst. unfold rueckgabe.
  destruct (Datetime.strptime D); [|contradiction].
  destruct z as [|c z]; cbn [wahr zeit_von andb].
  - split; [|intros [H _]; now contradiction H].
    destruct (nachkommastellen_von str_mp_pi B); [|discriminate].
    intros [= H]. now apply zusammenstellen_kein_fehler in H.
  - destruct (Re.match_zeit (String c z)); cbn [negb].
    + split; [|intros [_ H]; discriminate].
      destruct (nachkommastellen_von str_mp_pi B); [|discriminate].
      intros [= H]. now apply zusammenstellen_kein_fehler in H.
    + split; [intros _; split; [discriminate | reflexivity] | reflexivity].
Qed.

(** C5, as the code has it: with a valid date and a time that is none
    of the exceptions (the empty string; the shape ##.## written in
    decimal digits other than 0 to 9; the shape, in any decimal
    digits, followed by one line feed), the time-format error is
    returned exactly when the time is not of the shape ##.##.  On each
    of the exceptions the time is not of the shape and yet no error
    dictionary is returned.  No range is checked: the time 99.99 is of
    the shape and does not produce an error. *)
Theorem zeitformat_fehler
    (str_mp_pi : Z -> Z -> string)
    (D z : string) (B : Z) (w : Welt) :
  Datetime.strptime D <> None ->
  (zeit_ausnahme z = false ->
   (fst (finde_geburtsdatum_in_pi str_mp_pi D (Some z) B w)
      = Some (Fehler fehler_zeit)
    <-> form_hh_mm z = false))
  /\ (zeit_ausnahme z = true ->
      form_hh_mm z = false
      /\ forall msg,
           fst (finde_geburtsdatum_in_pi str_mp_pi D (Some z) B w)
           <> Some (Fehler msg))
  /\ form_hh_mm "99.99" = true
  /\ (forall msg,
        fst (finde_geburtsdatum_in_pi str_mp_pi
               D (Some "99.99") B w) <> Some (Fehler msg)).
Proof.
  intros HD.
  assert (K : forall y, (y = EmptyString \/ Re.match_zeit y = true) ->
              forall msg,
                fst (finde_geburtsdatum_in_pi str_mp_pi D (Some y) B w)
                <> Some (Fehler msg)).
  { intros y Hy msg H. rewrite finde_fst in H.
    assert (Hv : validiert D (Some y) = true).
    { unfold validiert. destruct (Datetime.strptime D); [|contradiction].
      destruct Hy as [-> | Hy]; [reflexivity|].
      cbn [zeit_von]. now rewrite Hy, andb_false_r. }
    destruct (validiert_rueckgabe _ _ _ _ _ Hv H) as [Hf _].
    now apply (Hf msg). }
  split; [|split; [|split; [reflexivity | now apply K; right]]].
  - unfold zeit_ausnahme. intros A.
    apply orb_false_iff in A as [A A3]. apply orb_false_iff in A as [A1 A2].
    rewrite (fehler_zeit_gdw _ _ _ _ _ HD), match_zeit_zerlegt, A3,
      orb_false_r.
    assert (N : z <> EmptyString).
    { intros ->. discriminate A1. }
    destruct (form_hh_mm z) eqn:F.
    + rewrite (form_hh_mm_zz _ F). split; [intros [_ Q]|]; discriminate.
    + cbn [negb] in A2. rewrite andb_true_r in A2. rewrite A2.
      split; [reflexivity | intros _; split; [exact N | reflexivity]].
  - unfold zeit_ausnahme. intros A.
    apply orb_true_iff in A as [A | A3];
      [apply orb_true_iff in A as [A1 | A2]|].
    + apply str_eqb_eq in A1. subst z. split; [reflexivity|].
      now apply K; left.
    + apply andb_true_iff in A2 as [F N]. apply negb_true_iff in N.
      split; [exact N|]. apply K. right.
      now rewrite match_zeit_zerlegt, F.
    + destruct (ohne_LF z) as [z'|] eqn:E; [|discriminate].
      split; [exact (proj2 (form_mit_LF _ _ E A3))|].
      apply K. right. rewrite match_zeit_zerlegt, E, A3.
      apply orb_true_r.
Qed.

(** ** What [str(mp.pi)] prints and what [split] keeps of it *)

Section Druck.

Import PyStr Mpmath.


Lemma rstrip_0_nullen (k : nat) : rstrip_0 (nullen k) = EmptyString.
Proof. induction k as [|k IH]; cbn; [reflexivity | now rewrite IH]. Qed.

(** Removing the trailing zeros leaves what stands after a point in
    place. *)
Lemma rstrip_0_punkt (a b : string) :
  rstrip_0 (a ++ String "." b) = a ++ String "." (rstrip_0 b).
Proof.
  induction a as [|c a IH]; cbn [Str.append rstrip_0].
  - change (Zeichen.eqb "." "0") with false. now destruct (rstrip_0 b).
  - rewrite IH. now destruct a.
Qed.

Lemma split_punkt_1_punkt (a b : string) :
  split_punkt_1 (a ++ String "." b) <> None.
Proof.
  induction a as [|c a IH]; cbn [Str.append split_punkt_1].
  - change (Zeichen.eqb "." ".") with true. discriminate.
  - destruct (Zeichen.eqb c "."); [discriminate | exact IH].
Qed.

Lemma bereinigt_punkt (a b : string) :
  exists x, bereinigt (a ++ String "." b) = a ++ String "." x.
Proof.
  unfold bereinigt. rewrite rstrip_0_punkt.
  destruct (endet_mit_punkt _).
  - exists (rstrip_0 b ++ "0"). now rewrite append_assoc.
  - now exists (rstrip_0 b).
Qed.

(** Whatever the digits, the exponent and the number of places,
    [to_str] prints a point. *)
Lemma to_str_punkt (digits : string) (exponent0 dps : Z) :
  split_punkt_1 (to_str digits exponent0 dps) <> None.
Proof.
  unfold to_str. destruct (gerundet (Z.to_nat dps) digits) as [d de].
  cbv zeta.
  match goal with
  | |- context [bereinigt (?a ++ "." ++ ?b)] =>
      change (a ++ "." ++ b) with (a ++ String "." b);
      destruct (bereinigt_punkt a b) as [x ->]
  end.
  destruct (_ =? 0); [apply split_punkt_1_punkt|].
  rewrite append_assoc. apply split_punkt_1_punkt.
Qed.

Lemma pi_str_punkt (prec dps : Z) : split_punkt_1 (pi_str prec dps) <> None.
Proof.
  unfold pi_str. destruct (mpf_pi prec) as [man exp].
  destruct (to_digits_exp man exp (dps + 3)) as [digits exponent].
  apply to_str_punkt.
Qed.













End Druck.


(** C1 at the date 23.07.8164 with the budget 8: the date is valid,
    the pattern has 8 digits, and the function returns ["gefunden":
    True] with the offset 62, which is not at most [8 - 8]. *)
Theorem treffer_jenseits_max_stellen :
  let r := fst (lauf "23.07.8164" None 8) in
  Datetime.strptime "23.07.8164" = Some (Datetime.mk_datetime 8164 7 23)
  /\ option_map suchstring_von r = Some (Some "23078164")
  /\ option_map gefunden r = Some (Some true)
  /\ option_map position_von r = Some (Some 62)
  /\ ~ (62 <= 8 - PyStr.len "23078164").
Proof.
  cbv zeta. split; [reflexivity|].
  split; [vm_compute; reflexivity|].
  split; [vm_compute; reflexivity|].
  split; [vm_compute; reflexivity|].
  unfold PyStr.len. cbn. lia.
Qed.

(** ** Concrete inputs for the theorems above *)

Lemma kontext_fenster_zeuge :
  fst (lauf "23.07.8164" None 8) = Some (Gefunden treffer_23078164)
  /\ exists nk,
       nachkommastellen_von Mpmath.pi_str 8 = Some nk
       /\ PyStr.slice nk (Some 62) (Some 70) = "23078164"
       /\ kontext treffer_23078164 =
            "..." ++ (PyStr.slice nk (Some 52) (Some 62)
                      ++ ("[" ++ "23078164" ++ "]")
                      ++ PyStr.slice nk (Some 70)
                           (Some (Z.min (PyStr.len nk) 80))) ++ "...".
Proof.
  assert (H : fst (lauf "23.07.8164" None 8)
              = Some (Gefunden treffer_23078164))
    by (vm_compute; reflexivity).
  split; [exact H|].
  destruct (kontext_fenster Mpmath.pi_str
              "23.07.8164" None 8 welt0 treffer_23078164 H)
    as (nk & Hnk & _ & _ & _ & Hs & Hk & _).
  exists nk. split; [exact Hnk|]. split; [exact Hs | exact Hk].
Defined.

Lemma buch_position_zeuge :
  fst (lauf "23.07.8164" None 8) = Some (Gefunden treffer_23078164)
  /\ buch_position treffer_23078164 =
       buch_anfang ++ PyStr.of_int (62 / 4000 + 1) ++ ", Zeile "
       ++ PyStr.of_int ((62 mod 4000) / 80 + 1) ++ " finden.".
Proof.
  assert (H : fst (lauf "23.07.8164" None 8)
              = Some (Gefunden treffer_23078164))
    by (vm_compute; reflexivity).
  split; [exact H|].
  exact (proj1 (proj2 (buch_position_seite_zeile Mpmath.pi_str "23.07.8164" None 8 welt0
           treffer_23078164 H))).
Defined.

Lemma validierung_vor_pi_zeuge :
  Datetime.strptime "31.02.2000" = None
  /\ fst (lauf "31.02.2000" None 10) = Some (Fehler fehler_datum)
  /\ mp_dps (snd (lauf "31.02.2000" None 10)) = 15.
Proof.
  assert (H : Datetime.strptime "31.02.2000" = None) by reflexivity.
  split; [exact H|].
  destruct (validierung_vor_pi Mpmath.pi_str
              "31.02.2000" None 10 welt0 (or_introl H))
    as (H1 & H2 & _).
  split; [exact H1 | exact H2].
Defined.

Lemma zeitformat_fehler_zeuge :
  Datetime.strptime "15.03.1990" <> None
  /\ zeit_ausnahme "14:30" = false
  /\ form_hh_mm "14:30" = false
  /\ fst (lauf "15.03.1990" (Some "14:30") 10) = Some (Fehler fehler_zeit).
Proof.
  assert (H1 : Datetime.strptime "15.03.1990" <> None)
    by (vm_compute; discriminate).
  assert (H2 : zeit_ausnahme "14:30" = false) by reflexivity.
  assert (H3 : form_hh_mm "14:30" = false) by reflexivity.
  split; [exact H1|]. split; [exact H2|]. split; [exact H3|].
  exact (proj2 (proj1 (zeitformat_fehler Mpmath.pi_str
                         "15.03.1990" "14:30" 10 welt0 H1) H2) H3).
Defined.

Lemma muster_mit_nullen_zeuge :
  Datetime.strptime "01.01.2000" = Some (Datetime.mk_datetime 2000 1 1)
  /\ form_dd_mm_yyyy "01.01.2000" = true
  /\ form_hh_mm "12.30" = true
  /\ muster "01.01.2000" (Some "12.30")
     = muster_laut_spec (Datetime.mk_datetime 2000 1 1) (Some (12, 30)).
Proof.
  assert (H1 : Datetime.strptime "01.01.2000"
               = Some (Datetime.mk_datetime 2000 1 1)) by reflexivity.
  assert (H2 : form_dd_mm_yyyy "01.01.2000" = true) by reflexivity.
  assert (H3 : form_hh_mm "12.30" = true) by reflexivity.
  split; [exact H1|]. split; [exact H2|]. split; [exact H3|].
  exact (proj1 (muster_mit_nullen Mpmath.pi_str
                  "01.01.2000" (Some "12.30") 10 welt0
                  (Datetime.mk_datetime 2000 1 1) H1 H2 (fun _ => H3))).
Defined.


(** ** Inputs on which the specification's wording fails *)

(** C2: the date 1.3.1990 parses, and its pattern is 131990, not the
    padded 01031990. *)
Lemma muster_gegenbeispiel :
  Datetime.strptime "1.3.1990" = Some (Datetime.mk_datetime 1990 3 1)
  /\ option_map suchstring_von (fst (lauf "1.3.1990" None 10))
     = Some (Some "131990")
  /\ muster_laut_spec (Datetime.mk_datetime 1990 3 1) None = "01031990"
  /\ option_map suchstring_von (fst (lauf "1.3.1990" None 10))
     <> Some (Some (muster_laut_spec (Datetime.mk_datetime 1990 3 1) None)).
Proof.
  split; [reflexivity|]. split; [vm_compute; reflexivity|].
  split; [reflexivity|]. vm_compute. discriminate.
Qed.

(** C3: with the date 15.03.1990 and the time abc the time-format
    error is returned, and the [replace] that builds the pattern from
    the date has been called before. *)
Lemma validierung_gegenbeispiel :
  let r := lauf "15.03.1990" (Some "abc") 10 in
  fst r = Some (Fehler fehler_zeit)
  /\ existsb ist_muster_ruf (protokoll (snd r)) = true
  /\ protokoll (snd r)
     = [Ruf_strptime "15.03.1990"; Ruf_replace "15.03.1990";
        Ruf_re_match "abc"].
Proof. cbv zeta. repeat split; vm_compute; reflexivity. Qed.


(** C5: three times that are not of the shape ##.## and for which
    the time-format error is not returned: the empty string, 12.30
    followed by a line feed, and 12.30 in Arabic-Indic digits. *)
Lemma zeitformat_gegenbeispiel :
  Datetime.strptime "15.03.1990" <> None
  /\ (form_hh_mm EmptyString = false
      /\ fst (lauf "15.03.1990" (Some EmptyString) 10)
         <> Some (Fehler fehler_zeit))
  /\ (form_hh_mm ("12.30" ++ String Re.LF EmptyString) = false
      /\ fst (lauf "15.03.1990"
                (Some ("12.30" ++ String Re.LF EmptyString)) 10)
         <> Some (Fehler fehler_zeit))
  /\ (form_hh_mm "١٢.٣٠" = false
      /\ fst (lauf "15.03.1990" (Some "١٢.٣٠") 10)
         <> Some (Fehler fehler_zeit)).
Proof.
  split; [vm_compute; discriminate|].
  repeat split; try reflexivity; vm_compute; discriminate.
Qed.

(** ** The search: leftmost occurrence, or none at all *)

Section Suche.

Import PyStr.

Lemma find_from_kein (sub s : string) (i : Z) :
  0 <= i -> find_from i sub s = -1 ->
  forall k, startswith sub (drop k s) = false.
Proof.
  revert i; induction s as [|c s IH]; intros i Hi; cbn [find_from].
  - destruct (startswith sub EmptyString) eqn:E; [lia|].
    intros _ k. now destruct k.
  - destruct (startswith sub (String c s)) eqn:E; [lia|].
    intros H [|k]; [exact E|]. cbn [drop]. apply (IH (i + 1)); [lia | exact H].
Qed.

Lemma find_from_erstes (sub s : string) (i : Z) :
  0 <= i -> find_from i sub s <> -1 ->
  startswith sub (drop (Z.to_nat (find_from i sub s - i)) s) = true
  /\ forall k, Z.of_nat k < find_from i sub s - i ->
               startswith sub (drop k s) = false.
Proof.
  revert i; induction s as [|c s IH]; intros i Hi; cbn [find_from].
  - destruct (startswith sub EmptyString) eqn:E; [|contradiction].
    intros _. rewrite Z.sub_diag. split; [exact E | lia].
  - destruct (startswith sub (String c s)) eqn:E.
    + intros _. rewrite Z.sub_diag. split; [exact E | lia].
    + intros H. destruct (IH (i + 1) ltac:(lia) H) as [H1 H2].
      pose proof (find_from_spec sub s (i + 1)) as [F | (F & _)];
        [contradiction|].
      replace (Z.to_nat (find_from (i + 1) sub s - i))
        with (S (Z.to_nat (find_from (i + 1) sub s - (i + 1)))) by lia.
      split; [exact H1|].
      intros [|k] Hk; [exact E|]. cbn [drop]. apply H2. lia.
Qed.

Lemma steht_an_find (nk sm : string) :
  find nk sm <> -1 ->
  steht_an nk sm (find nk sm) = true
  /\ forall i, i < find nk sm -> steht_an nk sm i = false.
Proof.
  intros H. unfold find in *.
  destruct (find_from_erstes sm nk 0 ltac:(lia) H) as [H1 H2].
  rewrite Z.sub_0_r in *.
  pose proof (find_from_spec sm nk 0) as [F | (F & _)]; [contradiction|].
  unfold steht_an. split.
  - rewrite H1. now destruct (0 <=? find_from 0 sm nk) eqn:E; [|lia].
  - intros i Hi. destruct (0 <=? i) eqn:E; [|reflexivity].
    cbn [andb]. apply H2. lia.
Qed.

Lemma steht_an_kein (nk sm : string) :
  find nk sm = -1 -> forall i, steht_an nk sm i = false.
Proof.
  intros H i. unfold steht_an, find in *.
  rewrite (find_from_kein sm nk 0 ltac:(lia) H). apply andb_false_r.
Qed.

End Suche.

(** A result with ["gefunden": False] comes from a validated input and
    a fractional digit string in which [find] returned -1. *)
Lemma nicht_gefunden_inv
    (str_mp_pi : Z -> Z -> string)
    (D : string) (T : option string) (B : Z) (w : Welt)
    (s n tp : string) :
  fst (finde_geburtsdatum_in_pi str_mp_pi D T B w)
    = Some (Nicht_gefunden s n tp) ->
  exists nk,
    nachkommastellen_von str_mp_pi B = Some nk
    /\ validiert D T = true
    /\ s = muster D T
    /\ PyStr.find nk s = -1
    /\ Nicht_gefunden s n tp = nicht_gefunden s B.
Proof.
  rewrite finde_fst. unfold rueckgabe, validiert.
  destruct (Datetime.strptime D); [|discriminate].
  destruct (wahr T && negb (Re.match_zeit (zeit_von T))); [discriminate|].
  destruct (nachkommastellen_von str_mp_pi B) as [nk|]; [|discriminate].
  unfold zusammenstellen.
  destruct (PyStr.find nk (muster D T) =? -1) eqn:E; [|discriminate].
  apply Z.eqb_eq in E. unfold nicht_gefunden at 1.
  intros [= <- <- <-]. exists nk. repeat split; auto.
Qed.

(** X1: the offset of a result with ["gefunden": True] is the leftmost
    occurrence: the pattern stands in the fractional digit string at
    that offset and at no smaller one. *)
Theorem position_ist_erstes_vorkommen
    (str_mp_pi : Z -> Z -> string)
    (D : string) (T : option string) (B : Z) (w : Welt) (t : Treffer) :
  fst (finde_geburtsdatum_in_pi str_mp_pi D T B w)
    = Some (Gefunden t) ->
  exists nk,
    nachkommastellen_von str_mp_pi B = Some nk
    /\ steht_an nk (suchstring t) (position t) = true
    /\ forall i, i < position t -> steht_an nk (suchstring t) i = false.
Proof.
  intros H. apply gefunden_inv in H as (nk & Hnk & _ & Hne & ->).
  exists nk. cbn [suchstring position]. split; [exact Hnk|].
  now apply steht_an_find.
Qed.

(** X2: a result with ["gefunden": False] means that the pattern stands
    at no offset of the fractional digit string, the guard digits
    included; it carries the pattern, and its message is the one built
    from the pattern and [max_stellen]. *)
Theorem nicht_gefunden_nirgends
    (str_mp_pi : Z -> Z -> string)
    (D : string) (T : option string) (B : Z) (w : Welt)
    (s n tp : string) :
  fst (finde_geburtsdatum_in_pi str_mp_pi D T B w)
    = Some (Nicht_gefunden s n tp) ->
  exists nk,
    nachkommastellen_von str_mp_pi B = Some nk
    /\ s = muster D T
    /\ (forall i, steht_an nk s i = false)
    /\ n = "Die Zahlenfolge '" ++ s ++ "' wurde in den ersten "
           ++ PyStr.of_int B ++ " Nachkommastellen von Pi nicht gefunden.".
Proof.
  intros H. apply nicht_gefunden_inv in H as (nk & Hnk & _ & Hs & Hf & Hn).
  exists nk. split; [exact Hnk|]. split; [exact Hs|].
  split; [now apply steht_an_kein|].
  unfold nicht_gefunden in Hn. now injection Hn.
Qed.

(** ** The other keys of a result with ["gefunden": True] *)

Lemma take_plus (n m : nat) (s : string) :
  PyStr.take n s ++ PyStr.take m (PyStr.drop n s) = PyStr.take (n + m) s.
Proof.
  revert s; induction n as [|n IH]; intros s; cbn; [reflexivity|].
  destruct s as [|c s]; cbn; [now destruct m | now rewrite IH].
Qed.

(** The remaining keys of a result with ["gefunden": True], each as a
    function of the offset, the pattern and the digit string. *)
Lemma gefunden_felder
    (str_mp_pi : Z -> Z -> string)
    (D : string) (T : option string) (B : Z) (w : Welt) (t : Treffer) :
  fst (finde_geburtsdatum_in_pi str_mp_pi D T B w)
    = Some (Gefunden t) ->
  exists nk,
    nachkommastellen_von str_mp_pi B = Some nk
    /\ laenge t = PyStr.len (suchstring t)
    /\ schreib_dauer t = schreib_dauer_text (position t)
    /\ wanderung t = wanderung_text (position t)
    /\ pi_position t = pi_position_text nk (suchstring t) (position t).
Proof.
  intros H. apply gefunden_inv in H as (nk & Hnk & _ & _ & ->).
  exists nk. cbn. auto.
Qed.

(** X3: the text under ["schreib_dauer"] names [p // 1800] hours and
    [(p % 1800) // 30] minutes for the offset [p]; the minutes lie in
    0..59, and hours and minutes together are the writing time of
    [2 * p] seconds rounded down to a whole minute. *)
Theorem schreib_dauer_stunden_minuten
    (str_mp_pi : Z -> Z -> string)
    (D : string) (T : option string) (B : Z) (w : Welt) (t : Treffer) :
  fst (finde_geburtsdatum_in_pi str_mp_pi D T B w)
    = Some (Gefunden t) ->
  let p := position t in
  let stunden := p / 1800 in
  let minuten := (p mod 1800) / 30 in
  schreib_dauer t =
    "Wenn du eine Ziffer pro 2 Sekunden schreibst, w" ++ ue ++ "rdest du "
    ++ PyStr.of_int stunden ++ " Stunden und " ++ PyStr.of_int minuten
    ++ " Minuten brauchen, um bis zu deinem Geburtsdatum zu kommen."
  /\ 0 <= stunden
  /\ 0 <= minuten <= 59
  /\ 3600 * stunden + 60 * minuten <= 2 * p < 3600 * stunden + 60 * minuten + 60.
Proof.
  intros H. pose proof H as H'.
  apply gefunden_treffer in H' as (nk & _ & _ & _ & H0 & _).
  apply gefunden_felder in H as (nk' & _ & _ & Hs & _).
  cbv zeta.
  assert (E1 : position t * 2 / 3600 = position t / 1800).
  { replace (position t * 2) with (2 * position t) by lia.
    change 3600 with (2 * 1800). apply Z.div_mul_cancel_l; lia. }
  assert (E2 : (position t * 2) mod 3600 / 60 = position t mod 1800 / 30).
  { replace (position t * 2) with (2 * position t) by lia.
    change 3600 with (2 * 1800). rewrite Z.mul_mod_distr_l by lia.
    change 60 with (2 * 30). apply Z.div_mul_cancel_l; lia. }
  split.
  - rewrite Hs. unfold schreib_dauer_text.
    change sekunden_pro_ziffer with 2. cbv zeta.
    rewrite E1, E2. reflexivity.
  - pose proof (Z.div_mod (position t) 1800 ltac:(lia)) as Q.
    pose proof (Z.mod_pos_bound (position t) 1800 ltac:(lia)) as R.
    pose proof (Z.div_mod (position t mod 1800) 30 ltac:(lia)) as Q'.
    pose proof (Z.mod_pos_bound (position t mod 1800) 30 ltac:(lia)) as R'.
    assert (0 <= position t / 1800) by (apply Z.div_pos; lia).
    assert (0 <= position t mod 1800 / 30) by (apply Z.div_pos; lia).
    repeat split; lia.
Qed.

(** X4: the text under ["pi_position"] is the text 3, followed by the
    [p] digits before the match, the pattern in square brackets and
    three points; it has [p + len(pattern) + 7] characters, and
    without the brackets its digits are the first [p + len(pattern)]
    fractional digits. *)
Theorem pi_position_text_aufbau
    (str_mp_pi : Z -> Z -> string)
    (D : string) (T : option string) (B : Z) (w : Welt) (t : Treffer) :
  fst (finde_geburtsdatum_in_pi str_mp_pi D T B w)
    = Some (Gefunden t) ->
  exists nk,
    nachkommastellen_von str_mp_pi B = Some nk
    /\ let p := position t in
       let sm := suchstring t in
       let davor := PyStr.take (Z.to_nat p) nk in
       pi_position t = "3," ++ davor ++ "[" ++ sm ++ "]..."
       /\ PyStr.len davor = p
       /\ PyStr.len (pi_position t) = p + PyStr.len sm + 7
       /\ davor ++ sm = PyStr.take (Z.to_nat (p + PyStr.len sm)) nk.
Proof.
  intros H. pose proof H as H'.
  apply gefunden_treffer in H'
    as (nk & Hnk & _ & _ & H0 & H1 & H2 & _).
  apply gefunden_felder in H as (nk' & Hnk' & _ & _ & _ & Hp).
  rewrite Hnk in Hnk'. injection Hnk' as <-.
  exists nk. split; [exact Hnk|]. cbv zeta.
  assert (Hl : 0 <= PyStr.len (suchstring t)) by (unfold PyStr.len; lia).
  assert (Ld : PyStr.len (PyStr.take (Z.to_nat (position t)) nk)
               = position t).
  { unfold PyStr.len in *. rewrite length_take. lia. }
  assert (Ep : pi_position t =
               "3," ++ PyStr.take (Z.to_nat (position t)) nk
               ++ "[" ++ suchstring t ++ "]...").
  { rewrite Hp. unfold pi_position_text.
    rewrite slice_bis by lia. reflexivity. }
  split; [exact Ep|]. split; [exact Ld|]. split.
  - rewrite Ep. unfold PyStr.len in *.
    rewrite !length_append. cbn [Str.length]. lia.
  - rewrite <- H2 at 1. rewrite take_plus. f_equal.
    unfold PyStr.len. lia.
Qed.

(** X5: the text under ["kontext"] has between [len(pattern) + 8] and
    [len(pattern) + 28] characters, whatever the offset; it has all
    [len(pattern) + 28] when at least 10 digits stand before the match
    and at least 10 after it. *)
Theorem kontext_laenge
    (str_mp_pi : Z -> Z -> string)
    (D : string) (T : option string) (B : Z) (w : Welt) (t : Treffer) :
  fst (finde_geburtsdatum_in_pi str_mp_pi D T B w)
    = Some (Gefunden t) ->
  exists nk,
    nachkommastellen_von str_mp_pi B = Some nk
    /\ let p := position t in
       let l := PyStr.len (suchstring t) in
       PyStr.len (kontext t)
         = l + 8 + Z.min p 10 + Z.min (PyStr.len nk - (p + l)) 10
       /\ l + 8 <= PyStr.len (kontext t) <= l + 28
       /\ (10 <= p -> p + l + 10 <= PyStr.len nk ->
           PyStr.len (kontext t) = l + 28).
Proof.
  intros H.
  apply gefunden_treffer in H
    as (nk & Hnk & _ & _ & H0 & H1 & H2 & Hk & _).
  exists nk. split; [exact Hnk|]. cbv zeta.
  assert (Hl : 0 <= PyStr.len (suchstring t)) by (unfold PyStr.len; lia).
  assert (E : PyStr.len (kontext t)
              = PyStr.len (suchstring t) + 8 + Z.min (position t) 10
                + Z.min (PyStr.len nk
                         - (position t + PyStr.len (suchstring t))) 10).
  { rewrite Hk, (kontext_text_eq nk (suchstring t) (position t) H0 H1 H2).
    rewrite !slice_innen by lia.
    unfold PyStr.len in *.
    rewrite !length_append, !length_take, !length_drop.
    cbn [Str.length]. lia. }
  split; [exact E|]. split; lia.
Qed.

(** ** What a validated call does to the world *)

(** X7: a call that passes validation leaves [mp.dps] at
    [max(1, max_stellen + 100)], whatever it held before; among the
    calls it makes, the assignment to [mp.dps] and [str(mp.pi)] occur
    exactly once each, next to each other, pi being printed at the
    precision just set; they come after [strptime] and the other
    calls of the validation, and only [find] on the pattern can
    follow. *)
Theorem validierter_lauf
    (str_mp_pi : Z -> Z -> string)
    (D : string) (T : option string) (B : Z) (w : Welt) :
  validiert D T = true ->
  let r := finde_geburtsdatum_in_pi str_mp_pi D T B w in
  mp_dps (snd r) = Z.max 1 (B + 100)
  /\ exists vor nach,
       neue_rufe w (snd r)
       = (vor ++ [Ruf_set_dps (B + 100); Ruf_str_pi (Z.max 1 (B + 100))]
              ++ nach)%list
       /\ hd_error vor = Some (Ruf_strptime D)
       /\ existsb ist_pi_ruf vor = false
       /\ existsb ist_pi_ruf nach = false
       /\ (nach = [] \/ nach = [Ruf_find (muster D T)]).
Proof.
  intros Hv r. subst r. rewrite neue_rufe_finde, finde_snd, Hv.
  cbn [mp_dps]. split; [reflexivity|].
  unfold rufe, validiert in *. change Mpmath.set_dps with (Z.max 1).
  destruct (Datetime.strptime D); [|discriminate].
  destruct (wahr T).
  - destruct (Re.match_zeit (zeit_von T)); [|discriminate].
    exists [Ruf_strptime D; Ruf_replace D; Ruf_re_match (zeit_von T);
            Ruf_replace (zeit_von T)].
    destruct (nachkommastellen_von str_mp_pi B);
      eexists; (split; [reflexivity|]); repeat split; auto.
  - exists [Ruf_strptime D; Ruf_replace D].
    destruct (nachkommastellen_von str_mp_pi B);
      eexists; (split; [reflexivity|]); repeat split; auto.
Qed.

(** X10: a time of the shape HH.MM followed by one line feed passes
    the time check like the time without it (the [$] of the
    expression matches before a final line feed); the line feed stays
    in the pattern, which is then the pattern of the time without it
    followed by a line feed. *)
Theorem zeit_mit_zeilenende
    (str_mp_pi : Z -> Z -> string)
    (D z : string) (B : Z) (w : Welt) :
  Datetime.strptime D <> None ->
  form_hh_mm z = true ->
  let zn := z ++ String Re.LF EmptyString in
  form_hh_mm zn = false
  /\ Re.match_zeit zn = true
  /\ validiert D (Some zn) = true
  /\ muster D (Some zn) = muster D (Some z) ++ String Re.LF EmptyString
  /\ forall e,
       fst (finde_geburtsdatum_in_pi str_mp_pi
              D (Some zn) B w) = Some e ->
       (forall msg, e <> Fehler msg)
       /\ suchstring_von e
          = Some (muster D (Some z) ++ String Re.LF EmptyString).
Proof.
  intros HD Hz. cbv zeta.
  destruct z as [|a [|b [|p [|c [|d [|x r]]]]]]; try discriminate.
  cbn [form_hh_mm] in Hz.
  apply andb_true_iff in Hz as [Hz Hd]. apply andb_true_iff in Hz as [Hz Hc].
  apply andb_true_iff in Hz as [Hz Hp]. apply andb_true_iff in Hz as [Ha Hb].
  apply zeichen_eqb_eq in Hp. subst p.
  apply ist_0_9_digit in Ha as [Ha _], Hb as [Hb _].
  apply ist_0_9_digit in Hc as [Hc _], Hd as [Hd _].
  set (z := String a (String b (String "." (String c (String d EmptyString))))).
  set (zn := z ++ String Re.LF EmptyString).
  assert (Hm : Re.match_zeit zn = true).
  { unfold zn, z. cbn [Str.append Re.match_zeit Re.dollar].
    rewrite Ha, Hb, Hc, Hd. reflexivity. }
  assert (Hv : validiert D (Some zn) = true).
  { unfold validiert. destruct (Datetime.strptime D); [|contradiction].
    change (wahr (Some zn)) with true. change (zeit_von (Some zn)) with zn.
    now rewrite Hm. }
  assert (HM : muster D (Some zn)
               = muster D (Some z) ++ String Re.LF EmptyString).
  { unfold muster. change (wahr (Some zn)) with true.
    change (wahr (Some z)) with true. cbn [zeit_von].
    unfold zn, z. cbn [Str.append PyStr.replace_punkt].
    rewrite !(is_digit_kein_punkt _ Ha), !(is_digit_kein_punkt _ Hb),
      !(is_digit_kein_punkt _ Hc), !(is_digit_kein_punkt _ Hd).
    change (Zeichen.eqb "." ".") with true.
    change (Zeichen.eqb Re.LF ".") with false. cbv iota.
    now rewrite append_assoc. }
  split; [reflexivity|]. split; [exact Hm|]. split; [exact Hv|].
  split; [exact HM|].
  intros e He. rewrite finde_fst in He. rewrite <- HM.
  exact (validiert_rueckgabe _ _ _ _ _ Hv He).
Qed.

(** ** Which dates pass the validation *)

Section Kalender.

Import PyStr Datetime.

(** The day group on two digits: the two-digit reading when it lies
    in 1..31, then the one-digit reading of the first digit. *)
Lemma re_d_ziffern (a b : zeichen) (s : string) :
  ist_0_9 a = true -> ist_0_9 b = true ->
  re_d (String a (String b s))
  = ((if (1 <=? 10 * digit_val a + digit_val b)
         && (10 * digit_val a + digit_val b <=? 31)
      then [(10 * digit_val a + digit_val b, s)] else [])
     ++ (if is_1_9 a then [(digit_val a, String b s)] else []))%list.
Proof.
  intros Ha Hb. apply is_digit_ziffern in Ha, Hb. cbn in Ha, Hb.
  repeat (destruct Ha as [<- | Ha]; [|]);
    try contradiction;
    repeat (destruct Hb as [<- | Hb]; [|]);
    try contradiction;
    vm_compute; reflexivity.
Qed.

(** The month group on two digits, likewise with 1..12. *)
Lemma re_m_ziffern (a b : zeichen) (s : string) :
  ist_0_9 a = true -> ist_0_9 b = true ->
  re_m (String a (String b s))
  = ((if (1 <=? 10 * digit_val a + digit_val b)
         && (10 * digit_val a + digit_val b <=? 12)
      then [(10 * digit_val a + digit_val b, s)] else [])
     ++ (if is_1_9 a then [(digit_val a, String b s)] else []))%list.
Proof.
  intros Ha Hb. apply is_digit_ziffern in Ha, Hb. cbn in Ha, Hb.
  repeat (destruct Ha as [<- | Ha]; [|]);
    try contradiction;
    repeat (destruct Hb as [<- | Hb]; [|]);
    try contradiction;
    vm_compute; reflexivity.
Qed.

Lemma days_in_month_31 (y m : Z) : days_in_month y m <= 31.
Proof.
  unfold days_in_month.
  destruct (m =? 2); [destruct (is_leap y); lia|].
  destruct (_ || _); lia.
Qed.

(** On a date written with ten characters DD.MM.YYYY the expression
    has one match when day and month lie in 1..31 and 1..12, and none
    otherwise. *)
Lemma re_format_dd_mm_yyyy (d1 d2 m1 m2 y1 y2 y3 y4 : zeichen) :
  ist_0_9 d1 = true -> ist_0_9 d2 = true ->
  ist_0_9 m1 = true -> ist_0_9 m2 = true ->
  ist_0_9 y1 = true -> ist_0_9 y2 = true ->
  ist_0_9 y3 = true -> ist_0_9 y4 = true ->
  let d := 10 * digit_val d1 + digit_val d2 in
  let m := 10 * digit_val m1 + digit_val m2 in
  let y := 1000 * digit_val y1 + 100 * digit_val y2
           + 10 * digit_val y3 + digit_val y4 in
  re_format
    (String d1 (String d2 (String "." (String m1 (String m2 (String "."
      (String y1 (String y2 (String y3 (String y4 EmptyString))))))))))
  = if ((1 <=? d) && (d <=? 31)) && ((1 <=? m) && (m <=? 12))
    then [(d, m, y, EmptyString)] else [].
Proof.
  intros Hd1 Hd2 Hm1 Hm2 Hy1 Hy2 Hy3 Hy4. cbv zeta.
  unfold re_format. rewrite (re_d_ziffern _ _ _ Hd1 Hd2), flat_map_app.
  assert (E2 : forall {A} (f : Z * string -> list A) (P : bool) x,
             flat_map f (if P then [x] else []) = if P then (f x ++ [])%list else [])
    by (intros A f [] x; reflexivity).
  rewrite !E2.
  cbn [re_punkt].
  rewrite (is_digit_kein_punkt _ (proj1 (ist_0_9_digit _ Hd2))).
  change (Zeichen.eqb "." ".") with true. cbn [wenn flat_map].
  rewrite (re_m_ziffern _ _ _ Hm1 Hm2), flat_map_app, !E2.
  cbn [re_punkt].
  rewrite (is_digit_kein_punkt _ (proj1 (ist_0_9_digit _ Hm2))).
  change (Zeichen.eqb "." ".") with true. cbn [wenn flat_map re_Y].
  rewrite (proj1 (ist_0_9_digit _ Hy1)), (proj1 (ist_0_9_digit _ Hy2)).
  rewrite (proj1 (ist_0_9_digit _ Hy3)), (proj1 (ist_0_9_digit _ Hy4)).
  cbn [andb wenn map].
  destruct ((1 <=? _) && (_ <=? 31)); destruct (is_1_9 d1);
    destruct ((1 <=? _) && (_ <=? 12)); destruct (is_1_9 m1);
    reflexivity.
Qed.

Lemma strptime_dd_mm_yyyy_make (d1 d2 m1 m2 y1 y2 y3 y4 : zeichen) :
  ist_0_9 d1 = true -> ist_0_9 d2 = true ->
  ist_0_9 m1 = true -> ist_0_9 m2 = true ->
  ist_0_9 y1 = true -> ist_0_9 y2 = true ->
  ist_0_9 y3 = true -> ist_0_9 y4 = true ->
  strptime
    (String d1 (String d2 (String "." (String m1 (String m2 (String "."
      (String y1 (String y2 (String y3 (String y4 EmptyString))))))))))
  = make (1000 * digit_val y1 + 100 * digit_val y2
          + 10 * digit_val y3 + digit_val y4)
         (10 * digit_val m1 + digit_val m2)
         (10 * digit_val d1 + digit_val d2).
Proof.
  intros Hd1 Hd2 Hm1 Hm2 Hy1 Hy2 Hy3 Hy4. unfold strptime.
  rewrite re_format_dd_mm_yyyy by assumption. cbv zeta.
  set (d := 10 * digit_val d1 + digit_val d2).
  set (m := 10 * digit_val m1 + digit_val m2).
  set (y := 1000 * digit_val y1 + 100 * digit_val y2
            + 10 * digit_val y3 + digit_val y4).
  destruct (((1 <=? d) && (d <=? 31)) && ((1 <=? m) && (m <=? 12))) eqn:E;
    [reflexivity|].
  unfold make. pose proof (days_in_month_31 y m).
  destruct ((1 <=? y) && (y <=? 9999) && (1 <=? m) && (m <=? 12)
            && (1 <=? d) && (d <=? days_in_month y m)) eqn:F;
    [|reflexivity].
  exfalso.
  repeat (apply andb_true_iff in F as [F ?]).
  apply andb_false_iff in E as [E | E];
    apply andb_false_iff in E as [E | E]; lia.
Qed.

End Kalender.

Lemma digit_val_bereich (c : zeichen) :
  PyStr.ist_0_9 c = true -> 0 <= PyStr.digit_val c <= 9.
Proof.
  intros H. apply is_digit_ziffern in H. cbn in H.
  repeat (destruct H as [<- | H]; [vm_compute; split; discriminate|]).
  contradiction.
Qed.

Lemma fehler_texte_verschieden : fehler_datum <> fehler_zeit.
Proof. vm_compute. discriminate. Qed.

(** The date-format error is returned exactly when [strptime] raises. *)
Lemma fehler_datum_gdw
    (str_mp_pi : Z -> Z -> string)
    (D : string) (T : option string) (B : Z) (w : Welt) :
  fst (finde_geburtsdatum_in_pi str_mp_pi D T B w)
    = Some (Fehler fehler_datum)
  <-> Datetime.strptime D = None.
Proof.
  rewrite finde_fst. unfold rueckgabe.
  destruct (Datetime.strptime D); [|split; reflexivity].
  split; [|discriminate].
  destruct (wahr T && negb (Re.match_zeit (zeit_von T))).
  - intros H. exfalso. apply fehler_texte_verschieden. congruence.
  - destruct (nachkommastellen_von str_mp_pi B); [|discriminate].
    intros [= H]. now apply zusammenstellen_kein_fehler in H.
Qed.

(** X9: for a date written with ten characters DD.MM.YYYY, [strptime]
    succeeds exactly when the year is at least 1, the month lies in
    1..12 and the day in 1..the number of days of that month in that
    year; the 29th of February passes exactly in the leap years of the
    Gregorian rule.  In every other case the function returns the
    date-format error, whatever the time and the budget. *)
Theorem datum_gueltig_gdw_kalender
    (str_mp_pi : Z -> Z -> string)
    (D : string) (T : option string) (B : Z) (w : Welt) :
  form_dd_mm_yyyy D = true ->
  let tag := int_von (PyStr.slice D (Some 0) (Some 2)) in
  let monat := int_von (PyStr.slice D (Some 3) (Some 5)) in
  let jahr := int_von (PyStr.slice D (Some 6) (Some 10)) in
  let kalender :=
    1 <= jahr /\ 1 <= monat <= 12
    /\ 1 <= tag <= Datetime.days_in_month jahr monat in
  (Datetime.strptime D <> None <-> kalender)
  /\ (fst (finde_geburtsdatum_in_pi str_mp_pi D T B w)
        = Some (Fehler fehler_datum) <-> ~ kalender)
  /\ (tag = 29 -> monat = 2 ->
      (Datetime.strptime D <> None
       <-> 1 <= jahr /\ Datetime.is_leap jahr = true)).
Proof.
  intros H.
  destruct D as [|d1 [|d2 [|p1 [|m1 [|m2 [|p2 [|y1 [|y2 [|y3 [|y4 [|? ?]]]]]]]]]]];
    try discriminate.
  cbn [form_dd_mm_yyyy] in H.
  apply andb_true_iff in H as [H Hy4]. apply andb_true_iff in H as [H Hy3].
  apply andb_true_iff in H as [H Hy2]. apply andb_true_iff in H as [H Hy1].
  apply andb_true_iff in H as [H Hp2]. apply andb_true_iff in H as [H Hm2].
  apply andb_true_iff in H as [H Hm1]. apply andb_true_iff in H as [H Hp1].
  apply andb_true_iff in H as [Hd1 Hd2].
  apply zeichen_eqb_eq in Hp1, Hp2. subst p1 p2.
  set (D := String d1 _).
  change (PyStr.slice D (Some 0) (Some 2))
    with (String d1 (String d2 EmptyString)).
  change (PyStr.slice D (Some 3) (Some 5))
    with (String m1 (String m2 EmptyString)).
  change (PyStr.slice D (Some 6) (Some 10))
    with (String y1 (String y2 (String y3 (String y4 EmptyString)))).
  unfold int_von. cbn [int_ab]. cbv zeta.
  pose proof (digit_val_bereich _ Hd1). pose proof (digit_val_bereich _ Hd2).
  pose proof (digit_val_bereich _ Hm1). pose proof (digit_val_bereich _ Hm2).
  pose proof (digit_val_bereich _ Hy1). pose proof (digit_val_bereich _ Hy2).
  pose proof (digit_val_bereich _ Hy3). pose proof (digit_val_bereich _ Hy4).
  replace (10 * (10 * 0 + PyStr.digit_val d1) + PyStr.digit_val d2)
    with (10 * PyStr.digit_val d1 + PyStr.digit_val d2) by lia.
  replace (10 * (10 * 0 + PyStr.digit_val m1) + PyStr.digit_val m2)
    with (10 * PyStr.digit_val m1 + PyStr.digit_val m2) by lia.
  replace (10 * (10 * (10 * (10 * 0 + PyStr.digit_val y1)
                       + PyStr.digit_val y2) + PyStr.digit_val y3)
           + PyStr.digit_val y4)
    with (1000 * PyStr.digit_val y1 + 100 * PyStr.digit_val y2
          + 10 * PyStr.digit_val y3 + PyStr.digit_val y4) by lia.
  set (d := 10 * PyStr.digit_val d1 + PyStr.digit_val d2).
  set (m := 10 * PyStr.digit_val m1 + PyStr.digit_val m2).
  set (y := 1000 * PyStr.digit_val y1 + 100 * PyStr.digit_val y2
            + 10 * PyStr.digit_val y3 + PyStr.digit_val y4).
  assert (Hy : y <= 9999) by (unfold y; lia).
  assert (E : Datetime.strptime D = Datetime.make y m d)
    by (apply strptime_dd_mm_yyyy_make; assumption).
  assert (K : Datetime.strptime D <> None
              <-> 1 <= y /\ 1 <= m <= 12
                  /\ 1 <= d <= Datetime.days_in_month y m).
  { rewrite E. unfold Datetime.make.
    destruct ((1 <=? y) && (y <=? 9999) && (1 <=? m) && (m <=? 12)
              && (1 <=? d) && (d <=? Datetime.days_in_month y m)) eqn:F.
    - repeat (apply andb_true_iff in F as [F ?]).
      split; [intros _; lia | discriminate].
    - split; [contradiction|]. intros (K1 & K2 & K3). exfalso.
      repeat (apply andb_false_iff in F as [F | F]); lia. }
  split; [exact K|]. split.
  - rewrite fehler_datum_gdw, <- K.
    destruct (Datetime.strptime D); split; intros Q;
      try discriminate; try reflexivity.
    + exfalso. apply Q. discriminate.
    + intros Q'. now apply Q'.
  - intros Hd Hm. rewrite K, Hd, Hm. unfold Datetime.days_in_month.
    change (2 =? 2) with true. cbv iota.
    destruct (Datetime.is_leap y); split; intros Q;
      try (split; [lia|]); try reflexivity; try lia;
      destruct Q as [? Q]; try discriminate; lia.
Qed.

(** ** The shape of an accepted date and of its pattern *)

Section Datumsform.

Import PyStr Datetime.

Lemma is_1_9_digit (c : zeichen) : is_1_9 c = true -> is_digit c = true.
Proof.
  unfold is_1_9, ist_1_9. intros H. apply ist_0_9_digit. unfold ist_0_9.
  apply andb_true_iff in H as [H1 H2]. apply N.leb_le in H1.
  rewrite H2, andb_true_r. apply N.leb_le. lia.
Qed.

Lemma re_d_form (s r : string) (v : Z) :
  In (v, r) (re_d s) -> exists tg, s = tg ++ r /\ tag_form tg = true.
Proof.
  destruct s as [|a [|b s]]; cbn [re_d]; intros H.
  - contradiction.
  - apply wenn_In in H as [Hc [= -> ->]].
    exists (String a EmptyString). split; [reflexivity | exact Hc].
  - repeat (apply in_app_or in H as [H | H]);
      apply wenn_In in H as [Hc [= -> ->]].
    + exists (String a (String b EmptyString)). split; [reflexivity|].
      apply andb_true_iff in Hc as [Ha Hb]. apply zeichen_eqb_eq in Ha.
      subst a. apply orb_true_iff in Hb as [Hb | Hb];
        apply zeichen_eqb_eq in Hb; subst b; reflexivity.
    + exists (String a (String b EmptyString)). split; [reflexivity|].
      apply andb_true_iff in Hc as [Ha Hb]. cbn [tag_form]. rewrite Hb.
      apply orb_true_iff in Ha as [Ha | Ha];
        apply zeichen_eqb_eq in Ha; subst a; reflexivity.
    + exists (String a (String b EmptyString)). split; [reflexivity|].
      apply andb_true_iff in Hc as [Ha Hb]. apply zeichen_eqb_eq in Ha.
      subst a. cbn [tag_form]. now rewrite (is_1_9_digit _ Hb).
    + exists (String a EmptyString). split; [reflexivity | exact Hc].
    + exists (String a (String b EmptyString)). split; [reflexivity|].
      cbn [tag_form]. rewrite Hc. apply orb_true_r.
Qed.

Lemma re_m_form (s r : string) (v : Z) :
  In (v, r) (re_m s) -> exists mo, s = mo ++ r /\ monat_form mo = true.
Proof.
  destruct s as [|a [|b s]]; cbn [re_m]; intros H.
  - contradiction.
  - apply wenn_In in H as [Hc [= -> ->]].
    exists (String a EmptyString). split; [reflexivity | exact Hc].
  - repeat (apply in_app_or in H as [H | H]);
      apply wenn_In in H as [Hc [= -> ->]].
    + exists (String a (String b EmptyString)). split; [reflexivity|].
      apply andb_true_iff in Hc as [Ha Hb]. apply zeichen_eqb_eq in Ha.
      subst a. repeat (apply orb_true_iff in Hb as [Hb | Hb]);
        apply zeichen_eqb_eq in Hb; subst b; reflexivity.
    + exists (String a (String b EmptyString)). split; [reflexivity|].
      apply andb_true_iff in Hc as [Ha Hb]. apply zeichen_eqb_eq in Ha.
      subst a. cbn [monat_form]. now rewrite (is_1_9_digit _ Hb).
    + exists (String a EmptyString). split; [reflexivity | exact Hc].
Qed.

Lemma re_Y_form (s r : string) (v : Z) :
  In (v, r) (re_Y s) -> exists ja, s = ja ++ r /\ jahr_form ja = true.
Proof.
  destruct s as [|a [|b [|c [|d s]]]]; cbn [re_Y]; try contradiction.
  intros H. apply wenn_In in H as [Hc [= -> ->]].
  exists (String a (String b (String c (String d EmptyString)))).
  split; [reflexivity | exact Hc].
Qed.

(** An accepted date is a day text, a point, a month text, a point
    and a year text. *)
Lemma strptime_form (D : string) (dt : datetime) :
  strptime D = Some dt ->
  exists tg mo ja,
    D = tg ++ "." ++ mo ++ "." ++ ja
    /\ tag_form tg = true /\ monat_form mo = true /\ jahr_form ja = true.
Proof.
  unfold strptime.
  destruct (re_format D) as [|[[[d m] y] rest] l] eqn:E; [discriminate|].
  destruct rest; [|discriminate]. intros _.
  assert (H : In (d, m, y, EmptyString) (re_format D))
    by (rewrite E; now left).
  clear E. unfold re_format in H.
  apply in_flat_map in H as ([d' s1] & Hd & H).
  apply in_flat_map in H as (s2 & Hp1 & H).
  apply in_flat_map in H as ([m' s3] & Hm & H).
  apply in_flat_map in H as (s4 & Hp2 & H).
  apply in_map_iff in H as ([y' s5] & Hy & HY).
  injection Hy as -> -> -> ->.
  apply re_d_form in Hd as (tg & -> & Ht).
  apply re_punkt_In in Hp1 as ->.
  apply re_m_form in Hm as (mo & -> & Hmo).
  apply re_punkt_In in Hp2 as ->.
  apply re_Y_form in HY as (ja & -> & Hj).
  exists tg, mo, ja. rewrite append_leer_r. auto.
Qed.

Lemma replace_punkt_app (s t : string) :
  replace_punkt (s ++ t) = replace_punkt s ++ replace_punkt t.
Proof.
  induction s as [|c s IH]; cbn; [reflexivity|].
  destruct (Zeichen.eqb c "."); cbn; now rewrite IH.
Qed.

Lemma alle_ziffern_app (s t : string) :
  alle_ziffern (s ++ t) = alle_ziffern s && alle_ziffern t.
Proof.
  induction s as [|c s IH]; cbn; [reflexivity|].
  now rewrite IH, andb_assoc.
Qed.

Lemma alle_ziffern_ohne_punkt (s : string) :
  alle_ziffern s = true -> replace_punkt s = s.
Proof.
  induction s as [|c s IH]; cbn; [reflexivity|].
  intros H. apply andb_true_iff in H as [Hc Hs].
  now rewrite (is_digit_kein_punkt _ Hc), IH.
Qed.

Lemma monat_form_ziffern (mo : string) :
  monat_form mo = true ->
  alle_ziffern mo = true /\ (1 <= Str.length mo <= 2)%nat.
Proof.
  destruct mo as [|a [|b [|c r]]]; try discriminate;
    cbn [monat_form alle_ziffern Str.length]; intros H.
  - rewrite (is_1_9_digit _ H). split; [reflexivity | lia].
  - apply andb_true_iff in H as [-> ->]. split; [reflexivity | lia].
Qed.

Lemma jahr_form_ziffern (ja : string) :
  jahr_form ja = true -> alle_ziffern ja = true /\ Str.length ja = 4%nat.
Proof.
  destruct ja as [|a [|b [|c [|d [|e r]]]]]; try discriminate;
    cbn [jahr_form alle_ziffern Str.length].
  intros H. apply andb_true_iff in H as [H ->].
  apply andb_true_iff in H as [H ->].
  apply andb_true_iff in H as [-> ->]. split; reflexivity.
Qed.

(** A day text keeps its characters under [replace], has one or two
    of them, and all but a leading space are digits. *)
Lemma tag_form_zeichen (tg : string) :
  tag_form tg = true ->
  replace_punkt tg = tg
  /\ (1 <= Str.length tg <= 2)%nat
  /\ alle_ziffern (drop 1 tg) = true
  /\ alle_ziffern tg = negb (startswith " " tg).
Proof.
  assert (Z : forall c, is_digit c = true -> Zeichen.eqb " " c = false).
  { intros c Hc. unfold Zeichen.eqb. rewrite N.eqb_sym.
    now apply (digit_ungleich c " "). }
  destruct tg as [|a [|b [|c r]]]; try discriminate; cbn [tag_form];
    intros H;
    cbn [replace_punkt Str.length drop alle_ziffern startswith].
  - pose proof (is_1_9_digit _ H) as Ha.
    rewrite (is_digit_kein_punkt _ Ha), Ha, (Z _ Ha).
    repeat split; lia.
  - apply orb_true_iff in H as [H | H];
      apply andb_true_iff in H as [Ha Hb].
    + rewrite (is_digit_kein_punkt _ Ha), (is_digit_kein_punkt _ Hb),
        Ha, Hb, (Z _ Ha).
      repeat split; lia.
    + apply zeichen_eqb_eq in Ha. subst a.
      pose proof (is_1_9_digit _ Hb) as Hb'.
      rewrite (is_digit_kein_punkt _ Hb'), Hb'.
      repeat split; lia.
Qed.

End Datumsform.

(** X8: when the date passes the validation and no time is given (or
    the empty one), the date is a day text of one or two characters,
    a point, a month text of one or two digits, a point and four
    digits; the pattern is these three texts put together, so it is
    two characters shorter than the date and has 6, 7 or 8
    characters; all its characters are digits, except that the first
    one is a space when the date starts with one.  Every returned
    dictionary carries this pattern. *)
Theorem datum_muster_gestalt
    (str_mp_pi : Z -> Z -> string)
    (D : string) (T : option string) (B : Z) (w : Welt)
    (dt : Datetime.datetime) :
  Datetime.strptime D = Some dt ->
  wahr T = false ->
  exists tg mo ja,
    D = tg ++ "." ++ mo ++ "." ++ ja
    /\ tag_form tg = true /\ monat_form mo = true /\ jahr_form ja = true
    /\ muster D T = tg ++ mo ++ ja
    /\ PyStr.len (muster D T) = PyStr.len D - 2
    /\ 6 <= PyStr.len (muster D T) <= 8
    /\ alle_ziffern (PyStr.drop 1 (muster D T)) = true
    /\ alle_ziffern (muster D T) = negb (PyStr.startswith " " D)
    /\ forall e,
         fst (finde_geburtsdatum_in_pi str_mp_pi D T B w)
           = Some e ->
         suchstring_von e = Some (tg ++ mo ++ ja).
Proof.
  intros HD HT.
  destruct (strptime_form D dt HD) as (tg & mo & ja & -> & Ht & Hm & Hj).
  exists tg, mo, ja.
  destruct (tag_form_zeichen tg Ht) as (Rt & Lt & Zt & Zt').
  destruct (monat_form_ziffern mo Hm) as (Zm & Lm).
  destruct (jahr_form_ziffern ja Hj) as (Zj & Lj).
  assert (HM : muster (tg ++ "." ++ mo ++ "." ++ ja) T = tg ++ mo ++ ja).
  { unfold muster. rewrite HT. rewrite !replace_punkt_app, Rt.
    rewrite (alle_ziffern_ohne_punkt _ Zm), (alle_ziffern_ohne_punkt _ Zj).
    reflexivity. }
  split; [reflexivity|]. split; [exact Ht|]. split; [exact Hm|].
  split; [exact Hj|]. split; [exact HM|]. rewrite HM.
  split; [|split; [|split; [|split]]].
  - unfold PyStr.len. rewrite !length_append. cbn [Str.length]. lia.
  - unfold PyStr.len. rewrite !length_append. lia.
  - destruct tg as [|a tg]; [discriminate|].
    cbn [Str.append PyStr.drop] in *.
    now rewrite !alle_ziffern_app, Zt, Zm, Zj.
  - rewrite !alle_ziffern_app, Zm, Zj, !andb_true_r, Zt'.
    now destruct tg as [|a tg]; [discriminate|].
  - intros e He. rewrite finde_fst in He. rewrite <- HM.
    assert (Hv : validiert (tg ++ "." ++ mo ++ "." ++ ja) T = true).
    { unfold validiert. now rewrite HD, HT. }
    now destruct (validiert_rueckgabe _ _ _ _ _ Hv He).
Qed.

(** C10, as the code has it: with a valid date, and [str(mp.pi)]
    printing a point, the empty string as time is the same call as no
    time at all: the run is the same step for step, no call of
    [re.match] is made, and a dictionary is returned that is not an
    error dictionary.  Its pattern is the day text, the month text and
    the year text of the date put together, with no time part: the
    month and year texts are digits, and so is the day text except for
    a leading space, which stays in the pattern. *)
Theorem leere_zeit_wie_keine
    (str_mp_pi : Z -> Z -> string)
    (D : string) (B : Z) (w : Welt) :
  Datetime.strptime D <> None ->
  nachkommastellen_von str_mp_pi B <> None ->
  let r := finde_geburtsdatum_in_pi str_mp_pi
             D (Some EmptyString) B w in
  r = finde_geburtsdatum_in_pi str_mp_pi D None B w
  /\ existsb ist_re_match (neue_rufe w (snd r)) = false
  /\ exists tg mo ja e,
       D = tg ++ "." ++ mo ++ "." ++ ja
       /\ tag_form tg = true /\ monat_form mo = true /\ jahr_form ja = true
       /\ fst r = Some e
       /\ (forall msg, e <> Fehler msg)
       /\ suchstring_von e = Some (tg ++ mo ++ ja)
       /\ alle_ziffern (PyStr.drop 1 (tg ++ mo ++ ja)) = true
       /\ alle_ziffern (tg ++ mo ++ ja) = negb (PyStr.startswith " " D).
Proof.
  intros HD Hnk r. subst r. split; [reflexivity|].
  assert (Hv : validiert D (Some EmptyString) = true).
  { unfold validiert. now destruct (Datetime.strptime D). }
  split.
  { rewrite neue_rufe_finde. unfold rufe.
    destruct (Datetime.strptime D); [|reflexivity].
    cbn [wahr]. destruct (nachkommastellen_von str_mp_pi B); reflexivity. }
  destruct (Datetime.strptime D) as [dt|] eqn:ED; [|contradiction].
  destruct (strptime_form D dt ED) as (tg & mo & ja & E & Ht & Hm & Hj).
  destruct (tag_form_zeichen tg Ht) as (Rt & Lt & Zt & Zt').
  destruct (monat_form_ziffern mo Hm) as (Zm & Lm).
  destruct (jahr_form_ziffern ja Hj) as (Zj & Lj).
  assert (HM : muster D (Some EmptyString) = tg ++ mo ++ ja).
  { unfold muster. cbn [wahr]. rewrite E, !replace_punkt_app, Rt.
    rewrite (alle_ziffern_ohne_punkt _ Zm), (alle_ziffern_ohne_punkt _ Zj).
    reflexivity. }
  assert (R : exists e,
            fst (finde_geburtsdatum_in_pi str_mp_pi
                   D (Some EmptyString) B w) = Some e).
  { rewrite finde_fst. unfold rueckgabe. rewrite ED. cbn [wahr andb].
    destruct (nachkommastellen_von str_mp_pi B); [|contradiction].
    eexists. reflexivity. }
  destruct R as [e He]. exists tg, mo, ja, e.
  pose proof He as He'. rewrite finde_fst in He'.
  destruct (validiert_rueckgabe _ _ _ _ _ Hv He') as [Hf Hs].
  split; [exact E|]. split; [exact Ht|]. split; [exact Hm|].
  split; [exact Hj|]. split; [exact He|]. split; [exact Hf|].
  split; [now rewrite <- HM|]. split.
  - destruct tg as [|a tg]; [discriminate|].
    cbn [Str.append PyStr.drop] in *.
    now rewrite !alle_ziffern_app, Zt, Zm, Zj.
  - rewrite !alle_ziffern_app, Zm, Zj, !andb_true_r, Zt', E.
    now destruct tg as [|a tg]; [discriminate|].
Qed.

(** ** The script *)

Section Skriptlauf.

Variable str_mp_pi : Z -> Z -> string.

Lemma bericht_fehler (f : string) :
  bericht (Fehler f) = ([], Some "nachricht").
Proof. reflexivity. Qed.

Lemma bericht_nicht_gefunden (s n tp : string) :
  bericht (Nicht_gefunden s n tp)
  = ([Zeile (zeilenende ++ [10060%N] ++ text " " ++ text n)%list], None).
Proof. unfold bericht. cbn. now rewrite app_nil_r. Qed.

Lemma bericht_gefunden (t : Treffer) :
  exists aus, bericht (Gefunden t) = (aus, None) /\ List.length aus = 6%nat.
Proof. eexists. split; reflexivity. Qed.

Lemma zusammenstellen_bericht (nk sm : string) (p B : Z) :
  exists aus,
    bericht (zusammenstellen nk sm p B) = (aus, None)
    /\ (List.length aus = 1%nat \/ List.length aus = 6%nat).
Proof.
  unfold zusammenstellen, nicht_gefunden. destruct (p =? -1).
  - rewrite bericht_nicht_gefunden. eexists. split; [reflexivity | now left].
  - destruct (bericht_gefunden
                {| suchstring := sm; position := p; laenge := PyStr.len sm;
                   schreib_dauer := schreib_dauer_text p;
                   buch_position := buch_position_text p;
                   wanderung := wanderung_text p;
                   kontext := kontext_text nk sm p;
                   pi_position := pi_position_text nk sm p |})
      as (aus & E & L).
    exists aus. split; [exact E | now right].
Qed.

(** An example whose input fails a validation ends the script with
    [KeyError('nachricht')] and prints nothing. *)
Lemma beispiel_nicht_validiert (D : string) (T : option string) (w : Welt) :
  validiert D T = false ->
  beispiel str_mp_pi D T w
  = (Some (KeyError "nachricht"), [],
     mk_Welt (mp_prec w) (mp_dps w)
       (protokoll w ++ rufe str_mp_pi D T max_stellen_vorgabe)).
Proof.
  intros Hv. unfold beispiel.
  pose proof (finde_fst str_mp_pi D T max_stellen_vorgabe w)
    as F.
  pose proof (finde_snd str_mp_pi D T max_stellen_vorgabe w)
    as S.
  destruct (finde_geburtsdatum_in_pi _ D T max_stellen_vorgabe w)
    as [r w'].
  cbn [fst snd] in F, S. subst r w'. rewrite Hv.
  unfold rueckgabe, validiert in *.
  destruct (Datetime.strptime D); [|reflexivity].
  destruct (wahr T && negb (Re.match_zeit (zeit_von T)));
    [reflexivity | discriminate].
Qed.

(** An example whose input is validated goes on, with one line printed
    or six. *)
Lemma beispiel_validiert (D : string) (T : option string) (w : Welt)
                         (nk : string) :
  validiert D T = true ->
  nachkommastellen_von str_mp_pi max_stellen_vorgabe = Some nk ->
  exists aus,
    beispiel str_mp_pi D T w
    = (None, aus,
       mk_Welt (Mpmath.dps_to_prec (max_stellen_vorgabe + 100))
         (Mpmath.set_dps (max_stellen_vorgabe + 100))
         (protokoll w ++ rufe str_mp_pi D T max_stellen_vorgabe))
    /\ (List.length aus = 1%nat \/ List.length aus = 6%nat).
Proof.
  intros Hv Hnk. unfold beispiel.
  pose proof (finde_fst str_mp_pi D T max_stellen_vorgabe w)
    as F.
  pose proof (finde_snd str_mp_pi D T max_stellen_vorgabe w)
    as S.
  destruct (finde_geburtsdatum_in_pi _ D T max_stellen_vorgabe w)
    as [r w'].
  cbn [fst snd] in F, S. subst r w'. rewrite Hv.
  unfold rueckgabe, validiert in *.
  destruct (Datetime.strptime D); [|discriminate].
  destruct (wahr T && negb (Re.match_zeit (zeit_von T))); [discriminate|].
  rewrite Hnk.
  destruct (zusammenstellen_bericht nk (muster D T)
              (PyStr.find nk (muster D T)) max_stellen_vorgabe)
    as (aus & -> & L).
  exists aus. split; [reflexivity | exact L].
Qed.

End Skriptlauf.

Lemma rufe_str_pi_einmal
    (str_mp_pi : Z -> Z -> string) (D : string) (T : option string) (B : Z)
    (nk : string) :
  validiert D T = true ->
  nachkommastellen_von str_mp_pi B = Some nk ->
  List.length (filter ist_str_pi (rufe str_mp_pi D T B)) = 1%nat.
Proof.
  unfold validiert, rufe. intros Hv ->.
  destruct (Datetime.strptime D); [|discriminate].
  destruct (wahr T); [|reflexivity].
  destruct (Re.match_zeit (zeit_von T)); [reflexivity | discriminate].
Qed.

(** X11: when the text typed is not a date that [strptime] accepts, the
    script ends with [KeyError('nachricht')]: the error dictionary has
    neither the key ["gefunden"] nor the key ["nachricht"].  Only the
    five heading lines and the prompt have been printed, the error
    text of the dictionary is not, the second example is not run, and
    [strptime] is the only call made. *)
Theorem skript_ungueltiges_datum
    (str_mp_pi : Z -> Z -> string)
    (message : string) (w : Welt) :
  Datetime.strptime message = None ->
  hauptprogramm str_mp_pi message w
  = (KeyError "nachricht", kopf,
     mk_Welt (mp_prec w) (mp_dps w)
       (protokoll w ++ [Ruf_strptime message])).
Proof.
  intros H. unfold hauptprogramm.
  rewrite beispiel_nicht_validiert
    by (unfold validiert; now rewrite H).
  unfold rufe. rewrite H. now rewrite app_nil_r.
Qed.

(** X12: when the text typed is a date that [strptime] accepts, and
    [str(mp.pi)] prints a point at the default budget, the script ends
    normally.  It prints the heading, one line (not found) or six
    lines (found) for the date typed, two lines, one or six lines for
    the second example, and three closing lines; pi is printed twice,
    once for each example, and [mp.dps] is left at 1000100. *)
Theorem skript_gueltiges_datum
    (str_mp_pi : Z -> Z -> string)
    (message : string) (w : Welt) :
  Datetime.strptime message <> None ->
  nachkommastellen_von str_mp_pi max_stellen_vorgabe <> None ->
  exists b1 b2 w',
    hauptprogramm str_mp_pi message w
    = (Beendet, (kopf ++ b1 ++ mitte ++ b2 ++ schluss)%list, w')
    /\ (List.length b1 = 1%nat \/ List.length b1 = 6%nat)
    /\ (List.length b2 = 1%nat \/ List.length b2 = 6%nat)
    /\ mp_dps w' = 1000100
    /\ List.length (filter ist_str_pi (neue_rufe w w')) = 2%nat.
Proof.
  intros HD Hnk.
  destruct (nachkommastellen_von str_mp_pi max_stellen_vorgabe)
    as [nk|] eqn:E; [clear Hnk | contradiction].
  assert (V1 : validiert message None = true).
  { unfold validiert. now destruct (Datetime.strptime message). }
  assert (V2 : validiert "01.01.2000" (Some "12.30") = true) by reflexivity.
  unfold hauptprogramm.
  destruct (beispiel_validiert str_mp_pi
              message None w nk V1 E) as (b1 & -> & L1).
  destruct (beispiel_validiert str_mp_pi
              "01.01.2000" (Some "12.30")
              (mk_Welt (Mpmath.dps_to_prec (max_stellen_vorgabe + 100))
                 (Mpmath.set_dps (max_stellen_vorgabe + 100))
                 (protokoll w
                  ++ rufe str_mp_pi message None max_stellen_vorgabe))
              nk V2 E) as (b2 & -> & L2).
  eexists b1, b2, _. split; [reflexivity|].
  split; [exact L1|]. split; [exact L2|]. split; [reflexivity|].
  unfold neue_rufe. cbn [protokoll].
  rewrite <- app_assoc, skipn_app, skipn_all, Nat.sub_diag.
  cbn [skipn app]. rewrite filter_app, length_app.
  now rewrite (rufe_str_pi_einmal _ _ _ _ nk V1 E),
    (rufe_str_pi_einmal _ _ _ _ nk V2 E).
Qed.

(** ** Concrete inputs for the further properties *)

Lemma position_ist_erstes_vorkommen_zeuge :
  fst (lauf "23.07.8164" None 8) = Some (Gefunden treffer_23078164)
  /\ exists nk,
       nachkommastellen_von Mpmath.pi_str 8 = Some nk
       /\ steht_an nk "23078164" 62 = true
       /\ forall i, i < 62 -> steht_an nk "23078164" i = false.
Proof.
  assert (H : fst (lauf "23.07.8164" None 8)
              = Some (Gefunden treffer_23078164))
    by (vm_compute; reflexivity).
  split; [exact H|].
  exact (position_ist_erstes_vorkommen Mpmath.pi_str
           "23.07.8164" None 8 welt0 treffer_23078164 H).
Defined.

Lemma nicht_gefunden_nirgends_zeuge :
  fst (lauf "01.01.2000" (Some "12.30") 1)
  = Some (nicht_gefunden "010120001230" 1)
  /\ exists nk,
       nachkommastellen_von Mpmath.pi_str 1 = Some nk
       /\ forall i, steht_an nk "010120001230" i = false.
Proof.
  assert (H : fst (lauf "01.01.2000" (Some "12.30") 1)
              = Some (nicht_gefunden "010120001230" 1))
    by (vm_compute; reflexivity).
  split; [exact H|].
  destruct (nicht_gefunden_nirgends Mpmath.pi_str
              "01.01.2000" (Some "12.30") 1 welt0 _ _ _ H)
    as (nk & H1 & _ & H2 & _).
  exists nk. split; [exact H1 | exact H2].
Defined.

Lemma schreib_dauer_zeuge :
  fst (lauf "23.07.8164" None 8) = Some (Gefunden treffer_23078164)
  /\ 0 <= 62 / 1800
  /\ 0 <= (62 mod 1800) / 30 <= 59.
Proof.
  assert (H : fst (lauf "23.07.8164" None 8)
              = Some (Gefunden treffer_23078164))
    by (vm_compute; reflexivity).
  split; [exact H|].
  destruct (schreib_dauer_stunden_minuten Mpmath.pi_str "23.07.8164" None 8 welt0
              treffer_23078164 H) as (_ & H1 & H2 & _).
  split; [exact H1 | exact H2].
Defined.

Lemma pi_position_zeuge :
  fst (lauf "23.07.8164" None 8) = Some (Gefunden treffer_23078164)
  /\ exists nk,
       nachkommastellen_von Mpmath.pi_str 8 = Some nk
       /\ PyStr.len (pi_position treffer_23078164) = 62 + 8 + 7.
Proof.
  assert (H : fst (lauf "23.07.8164" None 8)
              = Some (Gefunden treffer_23078164))
    by (vm_compute; reflexivity).
  split; [exact H|].
  destruct (pi_position_text_aufbau Mpmath.pi_str
              "23.07.8164" None 8 welt0 treffer_23078164 H)
    as (nk & H1 & _ & _ & H2 & _).
  exists nk. split; [exact H1 | exact H2].
Defined.

Lemma kontext_laenge_zeuge :
  fst (lauf "23.07.8164" None 8) = Some (Gefunden treffer_23078164)
  /\ exists nk,
       nachkommastellen_von Mpmath.pi_str 8 = Some nk
       /\ 8 + 8 <= PyStr.len (kontext treffer_23078164) <= 8 + 28.
Proof.
  assert (H : fst (lauf "23.07.8164" None 8)
              = Some (Gefunden treffer_23078164))
    by (vm_compute; reflexivity).
  split; [exact H|].
  destruct (kontext_laenge Mpmath.pi_str
              "23.07.8164" None 8 welt0 treffer_23078164 H)
    as (nk & H1 & _ & H2 & _).
  exists nk. split; [exact H1 | exact H2].
Defined.

Lemma validierter_lauf_zeuge :
  validiert "15.03.1990" None = true
  /\ mp_dps (snd (lauf "15.03.1990" None 10)) = Z.max 1 (10 + 100).
Proof.
  assert (H : validiert "15.03.1990" None = true) by reflexivity.
  split; [exact H|].
  exact (proj1 (validierter_lauf Mpmath.pi_str
                  "15.03.1990" None 10 welt0 H)).
Defined.

Lemma datum_muster_gestalt_zeuge :
  Datetime.strptime " 5.12.2001" = Some (Datetime.mk_datetime 2001 12 5)
  /\ wahr None = false
  /\ exists tg mo ja,
       " 5.12.2001" = tg ++ "." ++ mo ++ "." ++ ja
       /\ muster " 5.12.2001" None = tg ++ mo ++ ja
       /\ alle_ziffern (muster " 5.12.2001" None)
          = negb (PyStr.startswith " " " 5.12.2001").
Proof.
  assert (H1 : Datetime.strptime " 5.12.2001"
               = Some (Datetime.mk_datetime 2001 12 5)) by reflexivity.
  assert (H2 : wahr None = false) by reflexivity.
  split; [exact H1|]. split; [exact H2|].
  destruct (datum_muster_gestalt Mpmath.pi_str
              " 5.12.2001" None 10 welt0 _ H1 H2)
    as (tg & mo & ja & E & _ & _ & _ & M & _ & _ & _ & Z & _).
  exists tg, mo, ja. split; [exact E|]. split; [exact M | exact Z].
Defined.

Lemma datum_gueltig_gdw_kalender_zeuge :
  form_dd_mm_yyyy "29.02.1900" = true
  /\ (Datetime.strptime "29.02.1900" <> None
      <-> 1 <= 1900 /\ 1 <= 2 <= 12
          /\ 1 <= 29 <= Datetime.days_in_month 1900 2).
Proof.
  assert (H : form_dd_mm_yyyy "29.02.1900" = true) by reflexivity.
  split; [exact H|].
  exact (proj1 (datum_gueltig_gdw_kalender Mpmath.pi_str "29.02.1900" None 10 welt0 H)).
Defined.

Lemma zeit_mit_zeilenende_zeuge :
  Datetime.strptime "15.03.1990" <> None
  /\ form_hh_mm "12.30" = true
  /\ Re.match_zeit ("12.30" ++ String Re.LF EmptyString) = true
  /\ muster "15.03.1990" (Some ("12.30" ++ String Re.LF EmptyString))
     = muster "15.03.1990" (Some "12.30") ++ String Re.LF EmptyString.
Proof.
  assert (H1 : Datetime.strptime "15.03.1990" <> None)
    by (vm_compute; discriminate).
  assert (H2 : form_hh_mm "12.30" = true) by reflexivity.
  split; [exact H1|]. split; [exact H2|].
  destruct (zeit_mit_zeilenende Mpmath.pi_str
              "15.03.1990" "12.30" 10 welt0 H1 H2)
    as (_ & M & _ & HM & _).
  split; [exact M | exact HM].
Defined.

Lemma leere_zeit_zeuge :
  Datetime.strptime "15.03.1990" <> None
  /\ nachkommastellen_von Mpmath.pi_str 10 <> None
  /\ lauf "15.03.1990" (Some EmptyString) 10 = lauf "15.03.1990" None 10
  /\ exists tg mo ja e,
       "15.03.1990" = tg ++ "." ++ mo ++ "." ++ ja
       /\ fst (lauf "15.03.1990" (Some EmptyString) 10) = Some e
       /\ (forall msg, e <> Fehler msg)
       /\ suchstring_von e = Some (tg ++ mo ++ ja).
Proof.
  assert (H1 : Datetime.strptime "15.03.1990" <> None)
    by (vm_compute; discriminate).
  assert (H2 : nachkommastellen_von Mpmath.pi_str 10 <> None)
    by (vm_compute; discriminate).
  split; [exact H1|]. split; [exact H2|].
  destruct (leere_zeit_wie_keine Mpmath.pi_str "15.03.1990" 10 welt0 H1 H2)
    as (G & _ & tg & mo & ja & e & E & _ & _ & _ & He & Hf & Hs & _).
  split; [exact G|].
  exists tg, mo, ja, e.
  split; [exact E|]. split; [exact He|]. split; [exact Hf | exact Hs].
Defined.

(** C10: the date with the day written as a space and a 5 is valid;
    with the empty string as time the pattern returned keeps the
    space, so it does not consist of digits only. *)
Lemma leere_zeit_gegenbeispiel :
  Datetime.strptime " 5.12.2001" = Some (Datetime.mk_datetime 2001 12 5)
  /\ option_map suchstring_von
       (fst (lauf " 5.12.2001" (Some EmptyString) 10))
     = Some (Some " 5122001")
  /\ alle_ziffern " 5122001" = false.
Proof.
  split; [reflexivity|]. split; [vm_compute; reflexivity | reflexivity].
Qed.

Lemma skript_ungueltiges_datum_zeuge :
  Datetime.strptime "heute" = None
  /\ fst (fst (hauptprogramm Mpmath.pi_str
                 "heute" welt0))
     = KeyError "nachricht".
Proof.
  assert (H : Datetime.strptime "heute" = None) by reflexivity.
  split; [exact H|].
  now rewrite (skript_ungueltiges_datum Mpmath.pi_str "heute" welt0 H).
Defined.

Lemma skript_gueltiges_datum_zeuge :
  Datetime.strptime "15.03.1990" <> None
  /\ nachkommastellen_von Mpmath.pi_str max_stellen_vorgabe <> None
  /\ exists aus w',
       hauptprogramm Mpmath.pi_str
         "15.03.1990" welt0 = (Beendet, aus, w').
Proof.
  assert (H1 : Datetime.strptime "15.03.1990" <> None)
    by (vm_compute; discriminate).
  assert (H2 : nachkommastellen_von Mpmath.pi_str max_stellen_vorgabe
               <> None).
  { unfold nachkommastellen_von. apply pi_str_punkt. }
  split; [exact H1|]. split; [exact H2|].
  destruct (skript_gueltiges_datum Mpmath.pi_str
              "15.03.1990" welt0 H1 H2) as (b1 & b2 & w' & E & _).
  eexists _, w'. exact E.
Defined.
